(** * Learnova AI backend: the Flask routes of [app.py]

    A shallow embedding of [app.py] and the properties of its request
    handlers.  Python values are modelled as follows.

    - [str] is [string]; [len], slicing and [in] work on characters.
      [lower] maps the letters A to Z and leaves every other character
      as it is; no character outside ASCII lowercases to a letter of an
      allowed extension, so [allowed_file] decides such names as Python
      does.
    - A parsed JSON body, and every dictionary handed to [jsonify], is a
      [json] value; the items of a [JObj] are the items of the Python dict,
      so its keys are pairwise distinct.
    - An exception is an [exn]: its class name and [str(e)].  Only
      subclasses of [Exception] are modelled, which is what
      [except Exception] catches.
    - Every name that [app.py] imports and calls ([secure_filename],
      [FileStorage.save], [process_uploaded_file], the methods of
      [LearnovaAI], [datetime.now]) is a field of the environment [Env];
      the handlers are functions of the request and of that environment,
      and they log every call that has an effect outside the process.
      A handler makes each of these calls at most once for a request, so
      a function of the call's arguments covers every way a collaborator
      can behave while one request is handled. *)

From Stdlib Require Import String Ascii List Bool Arith ZArith Lia.
Import ListNotations.
Open Scope string_scope.
Set Warnings "-register-all".

(** ** Exceptions and results *)

Record exn : Type := Exn { exn_class : string; exn_str : string }.

Inductive result (A : Type) : Type :=
| Ok (a : A)
| Err (e : exn).
Arguments Ok {A} a.
Arguments Err {A} e.

(** ** JSON values (also the Python values [request.json] yields) *)

Inductive json : Type :=
| JNull
| JBool (b : bool)
| JNum (n : Z)
| JStr (s : string)
| JArr (l : list json)
| JObj (items : list (string * json)).

(** ** The builtins of Python that [app.py] uses *)

Module Py.

(** [c in s] for a one-character needle. *)
Fixpoint str_in (c : ascii) (s : string) : bool :=
  match s with
  | EmptyString => false
  | String d s' => Ascii.eqb d c || str_in c s'
  end.

(** The cut of [s] at the last occurrence of [sep], if there is one. *)
Fixpoint rcut (sep : ascii) (s : string) : option (string * string) :=
  match s with
  | EmptyString => None
  | String c s' =>
      match rcut sep s' with
      | Some (a, b) => Some (String c a, b)
      | None => if Ascii.eqb c sep then Some (EmptyString, s') else None
      end
  end.

(** [s.rsplit(sep, 1)]: at most one split, made at the last [sep]. *)
Definition rsplit1 (sep : ascii) (s : string) : list string :=
  match rcut sep s with
  | Some (a, b) => [a; b]
  | None => [s]
  end.

(** [l[i]] for [i >= 0]. *)
Definition getitem {A : Type} (l : list A) (i : nat) : result A :=
  match nth_error l i with
  | Some x => Ok x
  | None => Err (Exn "IndexError" "list index out of range")
  end.

Definition lower_char (c : ascii) : ascii :=
  let n := nat_of_ascii c in
  if Nat.leb 65 n && Nat.leb n 90 then ascii_of_nat (n + 32) else c.

(** [s.lower()]. *)
Fixpoint lower (s : string) : string :=
  match s with
  | EmptyString => EmptyString
  | String c s' => String (lower_char c) (lower s')
  end.

(** [x in S] for a set of strings. *)
Definition set_in (x : string) (S : list string) : bool :=
  existsb (String.eqb x) S.

(** [s[:n]]. *)
Fixpoint slice_to (n : nat) (s : string) : string :=
  match n, s with
  | S n', String c s' => String c (slice_to n' s')
  | _, _ => EmptyString
  end.

(** [bool(v)]. *)
Definition truthy (v : json) : bool :=
  match v with
  | JNull => false
  | JBool b => b
  | JNum n => negb (Z.eqb n 0)
  | JStr s => negb (String.eqb s "")
  | JArr l => match l with [] => false | _ => true end
  | JObj l => match l with [] => false | _ => true end
  end.

(** Lookup in the items of a dict or of a [MultiDict] (first value). *)
Fixpoint lookup {V : Type} (k : string) (items : list (string * V)) : option V :=
  match items with
  | [] => None
  | (k', v) :: rest => if String.eqb k' k then Some v else lookup k rest
  end.

Definition type_name (v : json) : string :=
  match v with
  | JNull => "NoneType"
  | JBool _ => "bool"
  | JNum _ => "int"
  | JStr _ => "str"
  | JArr _ => "list"
  | JObj _ => "dict"
  end.

(** [data.get(key, default)]: only a dict has the attribute. *)
Definition get (data : json) (key : string) (default : json) : result json :=
  match data with
  | JObj items =>
      Ok (match lookup key items with Some v => v | None => default end)
  | _ =>
      Err (Exn "AttributeError"
             ("'" ++ type_name data ++ "' object has no attribute 'get'"))
  end.

(** [os.path.join(a, b)] on POSIX. *)
Definition os_path_join (a b : string) : string :=
  match b with
  | String "/" _ => b
  | _ =>
      match a with
      | EmptyString => b
      | _ =>
          match rcut "/" a with
          | Some (_, EmptyString) => a ++ b
          | _ => a ++ "/" ++ b
          end
      end
  end.

End Py.

(** ** [allowed_file] *)

Definition ALLOWED_EXTENSIONS : list string :=
  ["txt"; "pdf"; "doc"; "docx"; "jpg"; "jpeg"; "png"].

(** [and] evaluates its right operand only when the left one is true. *)
Definition allowed_file (filename : string) : result bool :=
  if Py.str_in "." filename then
    match Py.getitem (Py.rsplit1 "." filename) 1 with
    | Ok ext => Ok (Py.set_in (Py.lower ext) ALLOWED_EXTENSIONS)
    | Err e => Err e
    end
  else Ok false.

(** The validator as the specification words it. *)
Definition isAllowed (f : string) : Prop :=
  exists stem ext,
    f = stem ++ "." ++ ext /\
    Py.str_in "." ext = false /\
    In (Py.lower ext) ALLOWED_EXTENSIONS.

(** ** Flask: requests and responses *)

Record FileStorage : Type := { filename : string; stream : string }.

(** [bool(file)] is [bool(file.filename)]. *)
Definition FileStorage_bool (file : FileStorage) : bool :=
  negb (filename file =? "").

(** A request as the view has read it: [files] and [form] are what
    [request.files] and [request.form] gave. Flask parses the body when
    a view first reads one of them and can raise there (a body over
    [MAX_CONTENT_LENGTH] raises RequestEntityTooLarge), before the view
    has tested anything; such a request has no [files] to speak of, and
    every statement below that names [files request] is about a request
    whose parts were read. Reading [request.json] is kept as a result,
    since the JSON routes go on to use what it gives. *)
Record Request : Type := {
  files : list (string * FileStorage);  (* request.files *)
  form : list (string * string);        (* request.form *)
  json_body : result json               (* what reading request.json gives *)
}.

(** [d.get(key, default)] on a [MultiDict] of strings. *)
Definition form_get (d : list (string * string)) (key default : string) : string :=
  match Py.lookup key d with
  | Some v => v
  | None => default
  end.

Record Response : Type := { body : json; status : Z }.

(** [jsonify(d)]: a JSON response, status 200 unless the view says more. *)
Definition jsonify (d : list (string * json)) : Response :=
  {| body := JObj d; status := 200 |}.

(** A view that returns the pair [(response, code)]. *)
Definition with_status (r : Response) (code : Z) : Response :=
  {| body := body r; status := code |}.

Definition field (key : string) (r : Response) : option json :=
  match body r with
  | JObj items => Py.lookup key items
  | _ => None
  end.

(** ** The environment: what [app.py] imports and calls *)

Record Env : Type := {
  (* werkzeug.utils *)
  secure_filename : string -> string;
  (* FileStorage.save(path) *)
  save : FileStorage -> string -> result unit;
  (* utils.file_processor *)
  process_uploaded_file : string -> result string;
  (* datetime.now().isoformat() *)
  now_isoformat : string;
  (* learnova_ai.ai_processor *)
  add_syllabus_materials : string -> string -> json -> result bool;
  list_uploaded_syllabus : result json;
  (* learnova_ai *)
  ai_generate_content : json -> json -> json -> json -> result string;
  ai_chat : json -> json -> json -> result string
}.

(** The calls that reach outside the process, as the log records them. *)
Inductive event : Type :=
| CallSave (file : FileStorage) (path : string)
| CallProcess (path : string)
| CallAddSyllabus (name text : string) (metadata : json)
| CallListSyllabus
| CallGenerate (topic education_level reference_material content_type : json)
| CallChat (question education_level context : json).

(** ** The monad of handlers: environment, call log, exceptions *)

Definition handler (A : Type) : Type :=
  Env -> list event -> result A * list event.

Definition ret {A : Type} (a : A) : handler A :=
  fun _ log => (Ok a, log).

Definition bind {A B : Type} (m : handler A) (k : A -> handler B) : handler B :=
  fun env log =>
    match m env log with
    | (Ok a, log') => k a env log'
    | (Err e, log') => (Err e, log')
    end.

(** A pure Python expression that may raise. *)
Definition lift {A : Type} (r : result A) : handler A :=
  fun _ log => (r, log).

(** A pure function of the environment. *)
Definition asks {A : Type} (f : Env -> A) : handler A :=
  fun env log => (Ok (f env), log).

(** A call with an outside effect: logged, then answered by the environment. *)
Definition call {A : Type} (ev : event) (f : Env -> result A) : handler A :=
  fun env log => (f env, (log ++ [ev])%list).

(** [try: m except Exception as e: h e]. *)
Definition try_except {A : Type} (m : handler A) (h : exn -> handler A) : handler A :=
  fun env log =>
    match m env log with
    | (Err e, log') => h e env log'
    | done => done
    end.

Declare Scope handler_scope.
Delimit Scope handler_scope with handler.
Notation "x <- m ;; k" := (bind m (fun x => k))
  (at level 61, m at next level, right associativity) : handler_scope.
Open Scope handler_scope.

(** A request handled from an empty log. *)
Definition run {A : Type} (m : handler A) (env : Env) : result A * list event :=
  m env [].

Definition outcome {A : Type} (m : handler A) (env : Env) : result A :=
  fst (run m env).

Definition calls {A : Type} (m : handler A) (env : Env) : list event :=
  snd (run m env).

(** ** The routes *)

Definition UPLOAD_FOLDER : string := "static/uploads/".

Definition error (message : string) (code : Z) : Response :=
  with_status (jsonify [("error", JStr message)]) code.

Definition upload_file (request : Request) : handler Response :=
  match Py.lookup "file" (files request) with
  | None => ret (error "No file uploaded" 400)
  | Some file =>
      let education_level :=
        form_get (form request) "education_level" "high_school" in
      if filename file =? "" then ret (error "No file selected" 400)
      else
        ok <- (if FileStorage_bool file
               then lift (allowed_file (filename file))
               else ret false) ;;
        if (ok : bool) then
          name <- asks (fun env => secure_filename env (filename file)) ;;
          let filepath := Py.os_path_join UPLOAD_FOLDER name in
          _ <- call (CallSave file filepath) (fun env => save env file filepath) ;;
          try_except
            (text_content <-
               call (CallProcess filepath)
                 (fun env => process_uploaded_file env filepath) ;;
             ret (jsonify
                    [("success", JBool true);
                     ("filename", JStr name);
                     ("content",
                       JStr (if Nat.ltb 1000 (String.length text_content)
                             then Py.slice_to 1000 text_content ++ "..."
                             else text_content));
                     ("message", JStr "File processed successfully")]))
            (fun e =>
               ret (error ("Error processing file: " ++ exn_str e) 500))
        else ret (error "Invalid file type" 400)
  end.

Definition upload_syllabus (request : Request) : handler Response :=
  match Py.lookup "file" (files request) with
  | None => ret (error "No file uploaded" 400)
  | Some file =>
      let education_level :=
        form_get (form request) "education_level" "high_school" in
      let subject := form_get (form request) "subject" "general" in
      if filename file =? "" then ret (error "No file selected" 400)
      else
        ok <- (if FileStorage_bool file
               then lift (allowed_file (filename file))
               else ret false) ;;
        if (ok : bool) then
          name <- asks (fun env => secure_filename env (filename file)) ;;
          let filepath := Py.os_path_join UPLOAD_FOLDER ("syllabus_" ++ name) in
          _ <- call (CallSave file filepath) (fun env => save env file filepath) ;;
          try_except
            (text_content <-
               call (CallProcess filepath)
                 (fun env => process_uploaded_file env filepath) ;;
             upload_date <- asks now_isoformat ;;
             let metadata :=
               JObj [("education_level", JStr education_level);
                     ("subject", JStr subject);
                     ("upload_date", JStr upload_date)] in
             success <-
               call (CallAddSyllabus name text_content metadata)
                 (fun env => add_syllabus_materials env name text_content metadata) ;;
             if (success : bool) then
               ret (jsonify
                      [("success", JBool true);
                       ("filename", JStr name);
                       ("message", JStr "Syllabus material embedded successfully");
                       ("preview",
                         JStr (if Nat.ltb 500 (String.length text_content)
                               then Py.slice_to 500 text_content ++ "..."
                               else text_content))])
             else ret (error "Failed to process syllabus material" 500))
            (fun e =>
               ret (error ("Error processing syllabus: " ++ exn_str e) 500))
        else ret (error "Invalid file type" 400)
  end.

Definition list_syllabus : handler Response :=
  try_except
    (materials <- call CallListSyllabus list_uploaded_syllabus ;;
     ret (jsonify [("success", JBool true); ("materials", materials)]))
    (fun e => ret (error ("Error listing materials: " ++ exn_str e) 500)).

Definition generate_content (request : Request) : handler Response :=
  data <- lift (json_body request) ;;
  topic <- lift (Py.get data "topic" JNull) ;;
  education_level <- lift (Py.get data "education_level" (JStr "high_school")) ;;
  reference_material <- lift (Py.get data "reference_material" (JStr "")) ;;
  content_type <- lift (Py.get data "content_type" (JStr "explanation")) ;;
  if negb (Py.truthy topic) then ret (error "Topic is required" 400)
  else
    try_except
      (result <-
         call (CallGenerate topic education_level reference_material content_type)
           (fun env =>
              ai_generate_content env topic education_level
                reference_material content_type) ;;
       ret (jsonify
              [("success", JBool true);
               ("content", JStr result);
               ("content_type", content_type)]))
      (fun e => ret (error ("Error generating content: " ++ exn_str e) 500)).

Definition chat (request : Request) : handler Response :=
  data <- lift (json_body request) ;;
  question <- lift (Py.get data "question" JNull) ;;
  education_level <- lift (Py.get data "education_level" (JStr "high_school")) ;;
  context <- lift (Py.get data "context" (JStr "")) ;;
  if negb (Py.truthy question) then ret (error "Question is required" 400)
  else
    try_except
      (response <-
         call (CallChat question education_level context)
           (fun env => ai_chat env question education_level context) ;;
       ret (jsonify [("success", JBool true); ("response", JStr response)]))
      (fun e => ret (error ("Error in chat: " ++ exn_str e) 500)).

Definition health_check : handler Response :=
  ret (jsonify
         [("status", JStr "healthy");
          ("message", JStr "Learnova AI is running!")]).

(** ** What the specification calls a valid upload *)

(** The three checks of the upload routes, in the order the specification
    gives them: a file part, a name that is not empty, an allowed extension. *)
Definition passes_validation (request : Request) (file : FileStorage) : Prop :=
  Py.lookup "file" (files request) = Some file /\
  filename file <> "" /\
  allowed_file (filename file) = Ok true.

(** ** A concrete environment and concrete requests *)

(** [werkzeug.utils.secure_filename] on POSIX, for names written in ASCII,
    on which it agrees with the library. A character outside ASCII is
    just dropped here; the library first normalises the name (NFKD), which
    can leave an ASCII letter behind, so the two differ on such names, and
    the sample environments are only used with ASCII names. *)
Module Werkzeug.

Definition code_in (lo hi : nat) (c : ascii) : bool :=
  Nat.leb lo (nat_of_ascii c) && Nat.leb (nat_of_ascii c) hi.

Definition is_ascii (c : ascii) : bool := code_in 0 127 c.

(** The characters [str.split()] cuts at. *)
Definition is_space (c : ascii) : bool :=
  code_in 9 13 c || code_in 28 32 c.

(** The class [A-Za-z0-9_.-]. *)
Definition is_safe (c : ascii) : bool :=
  code_in 65 90 c || code_in 97 122 c || code_in 48 57 c ||
  Ascii.eqb c "_" || Ascii.eqb c "." || Ascii.eqb c "-".

Definition is_dot_or_underscore (c : ascii) : bool :=
  Ascii.eqb c "." || Ascii.eqb c "_".

Fixpoint filter (keep : ascii -> bool) (s : string) : string :=
  match s with
  | EmptyString => EmptyString
  | String c s' => if keep c then String c (filter keep s') else filter keep s'
  end.

Fixpoint replace_char (old new : ascii) (s : string) : string :=
  match s with
  | EmptyString => EmptyString
  | String c s' =>
      String (if Ascii.eqb c old then new else c) (replace_char old new s')
  end.

(** [s.split()]: the maximal runs without white space; [word] is the run
    being read. *)
Fixpoint split (word s : string) : list string :=
  match s with
  | EmptyString => if word =? "" then [] else [word]
  | String c s' =>
      if is_space c
      then (if word =? "" then split "" s' else word :: split "" s')
      else split (word ++ String c "") s'
  end.

Fixpoint lstrip (drop : ascii -> bool) (s : string) : string :=
  match s with
  | EmptyString => EmptyString
  | String c s' => if drop c then lstrip drop s' else s
  end.

Fixpoint rstrip (drop : ascii -> bool) (s : string) : string :=
  match s with
  | EmptyString => EmptyString
  | String c s' =>
      match rstrip drop s' with
      | EmptyString => if drop c then EmptyString else String c EmptyString
      | rest => String c rest
      end
  end.

Definition secure_filename (filename : string) : string :=
  let filename := filter is_ascii filename in
  let filename := replace_char "/" " " filename in
  let filename := filter is_safe (String.concat "_" (split "" filename)) in
  rstrip is_dot_or_underscore (lstrip is_dot_or_underscore filename).

End Werkzeug.

(** An environment whose collaborators answer every call the same way. *)
Definition sample_env (saved : result unit) (text : result string)
    (added : result bool) (generated : result string) : Env :=
  {| secure_filename := Werkzeug.secure_filename;
     save := fun _ _ => saved;
     process_uploaded_file := fun _ => text;
     now_isoformat := "2024-05-01T09:30:00.000000";
     add_syllabus_materials := fun _ _ _ => added;
     list_uploaded_syllabus := Ok (JArr []);
     ai_generate_content := fun _ _ _ _ => generated;
     ai_chat := fun _ _ _ => generated |}.

(** A multipart request: the file parts and the form fields. *)
Definition multipart (parts : list (string * FileStorage))
    (fields : list (string * string)) : Request :=
  {| files := parts; form := fields; json_body := Ok JNull |}.

Definition part (name : string) : FileStorage :=
  {| filename := name; stream := "%PDF-1.4" |}.

Definition upload_of (name level : string) : Request :=
  multipart [("file", part name)] [("education_level", level)].

(** A request whose body made [request.json] give [data]. *)
Definition json_request (data : result json) : Request :=
  {| files := []; form := []; json_body := data |}.

Fixpoint replicate (n : nat) (c : ascii) : string :=
  match n with
  | O => EmptyString
  | S n' => String c (replicate n' c)
  end.

(** Every collaborator answers. *)
Definition ok_env : Env :=
  sample_env (Ok tt) (Ok "Photosynthesis turns light into sugar.")
    (Ok true) (Ok "Plants make their food from light.").

(** The upload folder cannot be written to. *)
Definition full_disk : Env :=
  sample_env (Err (Exn "OSError" "[Errno 28] No space left on device"))
    (Ok "Photosynthesis turns light into sugar.")
    (Ok true) (Ok "Plants make their food from light.").

(** The stored file cannot be read as text. *)
Definition unreadable : Env :=
  sample_env (Ok tt) (Err (Exn "ValueError" "Unsupported file format"))
    (Ok true) (Ok "Plants make their food from light.").

(** Extraction gives [n] times the letter a. *)
Definition letters (n : nat) (added : bool) : Env :=
  sample_env (Ok tt) (Ok (replicate n "a")) (Ok added)
    (Ok "Plants make their food from light.").

(** ** The URL map and what the routes send and show *)

(** The views that the [@app.route] decorators register, with their method
    and path; the landing page, which renders a template, is left out. *)
Definition api_routes : list (string * string * (Request -> handler Response)) :=
  [("POST", "/api/upload", upload_file);
   ("POST", "/api/syllabus/upload", upload_syllabus);
   ("GET", "/api/syllabus/list", fun _ => list_syllabus);
   ("POST", "/api/generate-content", generate_content);
   ("POST", "/api/chat", chat);
   ("GET", "/api/health", fun _ => health_check)].

(** The value of [d.get(key, default)] for the dict with these items. *)
Definition item_or (default : json) (key : string)
    (items : list (string * json)) : json :=
  match Py.lookup key items with
  | Some v => v
  | None => default
  end.

(** The metadata a syllabus upload sends along with the text. *)
Definition syllabus_metadata (request : Request) (env : Env) : json :=
  JObj [("education_level",
          JStr (form_get (form request) "education_level" "high_school"));
        ("subject", JStr (form_get (form request) "subject" "general"));
        ("upload_date", JStr (now_isoformat env))].

(** What a route shows of the extracted text [t] when it cuts at [n]. *)
Definition shown (n : nat) (t : string) : string :=
  if Nat.ltb n (String.length t) then Py.slice_to n t ++ "..." else t.

(** What [v.get] raises for a value [v] that is not a dict. *)
Definition attribute_error (v : json) : exn :=
  Exn "AttributeError" ("'" ++ Py.type_name v ++ "' object has no attribute 'get'").

(** ** Proof steps shared by the routes *)

(** Runs an upload handler through its three checks, given
    [H : passes_validation request file]. *)
Ltac checks_passed H :=
  let Hfile := fresh "Hfile" in
  let Hname := fresh "Hname" in
  let Hext := fresh "Hext" in
  destruct H as (Hfile & Hname & Hext);
  apply String.eqb_neq in Hname;
  unfold run, outcome, calls, run, upload_file, upload_syllabus,
    FileStorage_bool, bind, lift, asks, call, try_except, ret;
  rewrite ?Hfile, ?Hname, ?Hext; cbn [negb app].

(** Runs a JSON route up to the test of its required field, given
    [Hbody : json_body request = Ok (JObj items)] or another value. *)
Ltac json_route Hbody :=
  unfold run, outcome, calls, run, generate_content, chat,
    bind, lift, call, try_except, ret;
  rewrite Hbody; cbn [Py.get fst snd app].

(** ** Properties of the string builtins *)

Lemma rcut_none (sep : ascii) (s : string) :
  Py.rcut sep s = None <-> Py.str_in sep s = false.
Proof.
  induction s as [|c s IH]; simpl.
  - tauto.
  - destruct (Py.rcut sep s) as [[a b]|].
    + split; [discriminate|].
      intros H. apply orb_false_elim in H as [_ H].
      apply IH in H. discriminate.
    + destruct (Ascii.eqb c sep); simpl.
      * split; discriminate.
      * split; intros _; [now apply IH | reflexivity].
Qed.

Lemma rcut_some (sep : ascii) (s a b : string) :
  Py.rcut sep s = Some (a, b) <->
  s = a ++ String sep b /\ Py.str_in sep b = false.
Proof.
  revert a b. induction s as [|c s IH]; intros a b; simpl.
  - split; [discriminate|]. intros [H _]. destruct a; discriminate.
  - destruct (Py.rcut sep s) as [[a' b']|] eqn:E.
    + split.
      * intros H. injection H as <- <-.
        destruct (proj1 (IH a' b') eq_refl) as [-> Hb]. now split.
      * intros [H Hb]. destruct a as [|d a]; simpl in H.
        -- injection H as -> ->.
           assert (Py.rcut sep b = None) by now apply rcut_none.
           congruence.
        -- injection H as -> ->.
           assert (Some (a', b') = Some (a, b)) as X
             by (apply IH; now split).
           now injection X as -> ->.
    + apply rcut_none in E. split.
      * destruct (Ascii.eqb c sep) eqn:Ec; [|discriminate].
        apply Ascii.eqb_eq in Ec. intros H. injection H as <- <-.
        subst c. now split.
      * intros [H Hb]. destruct a as [|d a]; simpl in H.
        -- injection H as -> ->. now rewrite Ascii.eqb_refl.
        -- injection H as -> ->. exfalso.
           clear -E. induction a as [|x a IHa]; simpl in E.
           ++ rewrite Ascii.eqb_refl in E. discriminate.
           ++ apply orb_false_elim in E as [_ E]. auto.
Qed.

Lemma set_in_In (x : string) (S : list string) :
  Py.set_in x S = true <-> In x S.
Proof.
  unfold Py.set_in. rewrite existsb_exists. split.
  - intros [y [Hy E]]. apply String.eqb_eq in E. now subst.
  - intros H. exists x. split; [assumption | apply String.eqb_refl].
Qed.

Lemma allowed_file_iff (f : string) :
  exists b : bool, allowed_file f = Ok b /\ (b = true <-> isAllowed f).
Proof.
  unfold allowed_file, Py.rsplit1.
  destruct (Py.str_in "." f) eqn:Hin.
  - destruct (Py.rcut "." f) as [[a b]|] eqn:Hcut.
    + cbn [Py.getitem nth_error]. eexists. split; [reflexivity|].
      rewrite set_in_In. apply rcut_some in Hcut as [-> Hb]. split.
      * intros H. now exists a, b.
      * intros (stem & ext & E & Hext & H).
        assert (Py.rcut "." (a ++ String "." b) = Some (a, b)) as X1
          by now apply rcut_some.
        assert (Py.rcut "." (a ++ String "." b) = Some (stem, ext)) as X2
          by now apply rcut_some.
        rewrite X1 in X2. now injection X2 as -> ->.
    + apply rcut_none in Hcut. congruence.
  - exists false. split; [reflexivity|]. split; [discriminate|].
    intros (stem & ext & E & Hext & _). exfalso.
    assert (Py.rcut "." f = Some (stem, ext)) as X by now apply rcut_some.
    apply rcut_none in Hin. congruence.
Qed.

Lemma allowed_file_total (f : string) :
  allowed_file f = Ok true \/ allowed_file f = Ok false.
Proof.
  destruct (allowed_file_iff f) as [[|] [E _]]; auto.
Qed.

(** C1. [allowed_file] never raises, and it answers true exactly for the
    names that contain a dot and whose part after the last dot, lowercased,
    is one of txt, pdf, doc, docx, jpg, jpeg, png; the empty name and a name
    without a dot are refused, and the case of the extension is ignored. *)
Theorem allowed_file_spec :
  (forall f : string,
      exists b : bool, allowed_file f = Ok b /\ (b = true <-> isAllowed f)) /\
  (forall f : string, Py.str_in "." f = false -> allowed_file f = Ok false) /\
  allowed_file "" = Ok false /\
  allowed_file "noext" = Ok false /\
  allowed_file "virus.exe" = Ok false /\
  allowed_file "notes.TXT" = Ok true.
Proof.
  split; [exact allowed_file_iff|].
  split; [|repeat split].
  intros f H. unfold allowed_file. now rewrite H.
Qed.

(** ** The upload routes *)

Example secure_filename_samples :
  Werkzeug.secure_filename "notes.txt" = "notes.txt" /\
  Werkzeug.secure_filename "../../etc/My Plan.PDF" = "etc_My_Plan.PDF" /\
  Werkzeug.secure_filename "  .hidden  file_.png " = "hidden_file_.png".
Proof. repeat split. Qed.

(** C2. Both upload routes check, in this order, that the request has a
    file part (else 400, No file uploaded), that its name is not empty
    (else 400, No file selected) and that its extension is allowed (else
    400, Invalid file type); a request that fails a check makes no outside
    call, one that passes all three has its file saved first and, once
    saved, processed; a call is only ever made for a request that passes. *)
Theorem upload_validation_order (request : Request) (env : Env) :
  (Py.lookup "file" (files request) = None ->
   let refused :=
     (Ok {| body := JObj [("error", JStr "No file uploaded")]; status := 400 |},
      @nil event) in
   run (upload_file request) env = refused /\
   run (upload_syllabus request) env = refused) /\
  (forall file,
      Py.lookup "file" (files request) = Some file ->
      filename file = "" ->
      let refused :=
        (Ok {| body := JObj [("error", JStr "No file selected")]; status := 400 |},
         @nil event) in
      run (upload_file request) env = refused /\
      run (upload_syllabus request) env = refused) /\
  (forall file,
      Py.lookup "file" (files request) = Some file ->
      filename file <> "" ->
      allowed_file (filename file) = Ok false ->
      let refused :=
        (Ok {| body := JObj [("error", JStr "Invalid file type")]; status := 400 |},
         @nil event) in
      run (upload_file request) env = refused /\
      run (upload_syllabus request) env = refused) /\
  (forall file,
      passes_validation request file ->
      let name := secure_filename env (filename file) in
      let path := Py.os_path_join UPLOAD_FOLDER name in
      let syllabus_path := Py.os_path_join UPLOAD_FOLDER ("syllabus_" ++ name) in
      (exists rest, calls (upload_file request) env = CallSave file path :: rest) /\
      (exists rest,
          calls (upload_syllabus request) env = CallSave file syllabus_path :: rest) /\
      (save env file path = Ok tt ->
       calls (upload_file request) env = [CallSave file path; CallProcess path]) /\
      (save env file syllabus_path = Ok tt ->
       exists rest,
         calls (upload_syllabus request) env =
         CallSave file syllabus_path :: CallProcess syllabus_path :: rest)) /\
  (forall ev,
      In ev (calls (upload_file request) env) \/
      In ev (calls (upload_syllabus request) env) ->
      exists file, passes_validation request file).
Proof.
  repeat apply conj.
  - intros H. unfold run, upload_file, upload_syllabus. rewrite H. now split.
  - intros file H E. unfold run, upload_file, upload_syllabus.
    rewrite H, E. now split.
  - intros file H N A. apply String.eqb_neq in N.
    unfold run, upload_file, upload_syllabus, FileStorage_bool, bind, lift.
    rewrite H, N, A. now split.
  - intros file H name path syllabus_path. subst name path syllabus_path.
    repeat apply conj.
    + checks_passed H.
      destruct (save env file _) as [[]|e]; [|eexists; reflexivity].
      destruct (process_uploaded_file env _); eexists; reflexivity.
    + checks_passed H.
      destruct (save env file _) as [[]|e]; [|eexists; reflexivity].
      destruct (process_uploaded_file env _); [|eexists; reflexivity].
      destruct (add_syllabus_materials env _ _ _) as [[|]|];
        eexists; reflexivity.
    + intros S. checks_passed H. rewrite S.
      destruct (process_uploaded_file env _); reflexivity.
    + intros S. checks_passed H. rewrite S.
      destruct (process_uploaded_file env _); [|eexists; reflexivity].
      destruct (add_syllabus_materials env _ _ _) as [[|]|];
        eexists; reflexivity.
  - intros ev H.
    destruct (Py.lookup "file" (files request)) as [file|] eqn:Hfile.
    + destruct (String.eqb_spec (filename file) "") as [E|N].
      * exfalso. unfold calls, run, upload_file, upload_syllabus in H.
        rewrite Hfile, E in H. simpl in H. tauto.
      * destruct (allowed_file_total (filename file)) as [A|A].
        -- exists file. now repeat split.
        -- exfalso. apply String.eqb_neq in N.
           unfold calls, run, upload_file, upload_syllabus, FileStorage_bool,
             bind, lift in H.
           rewrite Hfile, N, A in H. simpl in H. tauto.
    + exfalso. unfold calls, run, upload_file, upload_syllabus in H.
      rewrite Hfile in H. simpl in H. tauto.
Qed.

Lemma length_append (a b : string) :
  String.length (a ++ b) = String.length a + String.length b.
Proof. induction a as [|c a IH]; simpl; [reflexivity | now rewrite IH]. Qed.

(** [s[:n]] is the prefix of [s] that has [n] characters, or all of [s]. *)
Lemma slice_to_prefix (n : nat) (s : string) :
  exists tail,
    s = Py.slice_to n s ++ tail /\
    String.length (Py.slice_to n s) = Nat.min n (String.length s).
Proof.
  revert s. induction n as [|n IH]; intros s.
  - exists s. now split.
  - destruct s as [|c s].
    + exists "". now split.
    + destruct (IH s) as (tail & E & L). exists tail.
      cbn [Py.slice_to append String.length]. split.
      * now rewrite <- E.
      * rewrite L. reflexivity.
Qed.

(** The text a route shows: all of it, or its first [n] characters and an
    ellipsis when it is longer than [n]. *)
Lemma shown_text (n : nat) (t : string) :
  let shown :=
    if Nat.ltb n (String.length t) then Py.slice_to n t ++ "..." else t in
  (n < String.length t ->
   exists head tail,
     t = head ++ tail /\ String.length head = n /\
     shown = head ++ "..." /\ String.length shown = n + 3) /\
  (String.length t <= n -> shown = t).
Proof.
  cbv zeta. destruct (Nat.ltb_spec n (String.length t)) as [L|L].
  - split; [intros _ | lia].
    destruct (slice_to_prefix n t) as (tail & E & Len).
    exists (Py.slice_to n t), tail. rewrite length_append.
    change (String.length "...") with 3. repeat split; auto; lia.
  - split; [lia | reflexivity].
Qed.

(** C3. When [/api/upload] succeeds with extracted text [t], the content
    field is [t] itself if [t] has at most 1000 characters, and otherwise
    the first 1000 characters of [t] followed by three dots, 1003
    characters in all. *)
Theorem upload_content_truncation
    (request : Request) (env : Env) (file : FileStorage) (t : string) :
  passes_validation request file ->
  let name := secure_filename env (filename file) in
  let path := Py.os_path_join UPLOAD_FOLDER name in
  save env file path = Ok tt ->
  process_uploaded_file env path = Ok t ->
  exists response content,
    outcome (upload_file request) env = Ok response /\
    status response = 200%Z /\
    field "success" response = Some (JBool true) /\
    field "content" response = Some (JStr content) /\
    (1000 < String.length t ->
     exists head tail,
       t = head ++ tail /\ String.length head = 1000 /\
       content = head ++ "..." /\ String.length content = 1003) /\
    (String.length t <= 1000 -> content = t).
Proof.
  intros H name path S P. subst name path.
  checks_passed H. rewrite S, P. cbn [fst].
  eexists. eexists. split; [reflexivity|].
  repeat (split; [reflexivity|]).
  exact (shown_text 1000 t).
Qed.

(** Where [upload_syllabus] stores a file whose sanitised name is [name]. *)
Lemma syllabus_path_eq (name : string) :
  Py.os_path_join UPLOAD_FOLDER ("syllabus_" ++ name) =
  "static/uploads/syllabus_" ++ name.
Proof. reflexivity. Qed.

(** C4, as the code has it. For a request whose file part has been read
    and has passed validation: [file.save] is called before the [try]
    block of both upload routes, so when it raises, the exception leaves
    the handler; when it returns, the handler answers with a response,
    200 or 500, because every failure after it, in text extraction and,
    for syllabus uploads, in [add_syllabus_materials], is caught and
    answered with a JSON error of status 500. *)
Theorem upload_failures_caught
    (request : Request) (env : Env) (file : FileStorage) :
  passes_validation request file ->
  let name := secure_filename env (filename file) in
  let path := Py.os_path_join UPLOAD_FOLDER name in
  let syllabus_path := Py.os_path_join UPLOAD_FOLDER ("syllabus_" ++ name) in
  let metadata :=
    JObj [("education_level",
            JStr (form_get (form request) "education_level" "high_school"));
          ("subject", JStr (form_get (form request) "subject" "general"));
          ("upload_date", JStr (now_isoformat env))] in
  (save env file path = Ok tt ->
   exists response,
     outcome (upload_file request) env = Ok response /\
     In (status response) [200; 500]%Z) /\
  (save env file syllabus_path = Ok tt ->
   exists response,
     outcome (upload_syllabus request) env = Ok response /\
     In (status response) [200; 500]%Z) /\
  (forall e,
      save env file path = Ok tt ->
      process_uploaded_file env path = Err e ->
      outcome (upload_file request) env =
      Ok {| body := JObj [("error", JStr ("Error processing file: " ++ exn_str e))];
            status := 500 |}) /\
  (forall e,
      save env file syllabus_path = Ok tt ->
      process_uploaded_file env syllabus_path = Err e ->
      outcome (upload_syllabus request) env =
      Ok {| body := JObj [("error", JStr ("Error processing syllabus: " ++ exn_str e))];
            status := 500 |}) /\
  (forall t e,
      save env file syllabus_path = Ok tt ->
      process_uploaded_file env syllabus_path = Ok t ->
      add_syllabus_materials env name t metadata = Err e ->
      outcome (upload_syllabus request) env =
      Ok {| body := JObj [("error", JStr ("Error processing syllabus: " ++ exn_str e))];
            status := 500 |}) /\
  (forall e,
      save env file path = Err e ->
      outcome (upload_file request) env = Err e) /\
  (forall e,
      save env file syllabus_path = Err e ->
      outcome (upload_syllabus request) env = Err e).
Proof.
  intros H name path syllabus_path metadata.
  subst name path syllabus_path metadata. repeat apply conj.
  - intros S. checks_passed H. rewrite S.
    destruct (process_uploaded_file env _);
      eexists; (split; [reflexivity | simpl; tauto]).
  - intros S. checks_passed H. rewrite S.
    destruct (process_uploaded_file env _);
      try destruct (add_syllabus_materials env _ _ _) as [[|]|];
      eexists; (split; [reflexivity | simpl; tauto]).
  - intros e S P. checks_passed H. now rewrite S, P.
  - intros e S P. checks_passed H. now rewrite S, P.
  - intros t e S P A. checks_passed H. now rewrite S, P, A.
  - intros e S. checks_passed H. now rewrite S.
  - intros e S. checks_passed H. now rewrite S.
Qed.

(** C5, as the code has it. A syllabus upload that succeeds made exactly
    three outside calls: the file was saved in the upload folder under
    the prefixed name, that stored file was processed, and the text went
    to [add_syllabus_materials] under the sanitised name [n] without the
    prefix; the response reports [n] too, not the stored name. *)
Theorem syllabus_stored_and_reported_names
    (request : Request) (env : Env) (response : Response) :
  outcome (upload_syllabus request) env = Ok response ->
  status response = 200%Z ->
  exists file text metadata,
    passes_validation request file /\
    let n := secure_filename env (filename file) in
    let stored := "static/uploads/" ++ "syllabus_" ++ n in
    calls (upload_syllabus request) env =
      [CallSave file stored; CallProcess stored;
       CallAddSyllabus n text metadata] /\
    field "filename" response = Some (JStr n) /\
    n <> "syllabus_" ++ n.
Proof.
  intros O St.
  assert (forall n : string, n <> "syllabus_" ++ n) as Neq.
  { intros n E. apply (f_equal String.length) in E.
    rewrite length_append in E. simpl in E. lia. }
  destruct (Py.lookup "file" (files request)) as [file|] eqn:Hfile.
  - destruct (String.eqb_spec (filename file) "") as [E|N].
    + exfalso. unfold outcome, run, upload_syllabus in O.
      rewrite Hfile, E in O. injection O as <-. discriminate.
    + destruct (allowed_file_total (filename file)) as [A|A].
      * assert (passes_validation request file) as H by now repeat split.
        exists file. revert O. pose proof H as H'. checks_passed H'.
        rewrite syllabus_path_eq.
        destruct (save env file _) as [[]|e]; [|discriminate].
        destruct (process_uploaded_file env _) as [text|e];
          [|intros O; injection O as <-; discriminate].
        destruct (add_syllabus_materials env _ _ _) as [[|]|e];
          intros O; injection O as <-; try discriminate.
        do 2 eexists. split; [exact H|]. cbv zeta.
        split; [reflexivity | split; [reflexivity | apply Neq]].
      * exfalso. apply String.eqb_neq in N.
        unfold outcome, run, upload_syllabus, FileStorage_bool, bind, lift in O.
        rewrite Hfile, N, A in O. injection O as <-. discriminate.
  - exfalso. unfold outcome, run, upload_syllabus in O.
    rewrite Hfile in O. injection O as <-. discriminate.
Qed.

(** C6. In a syllabus upload that passed validation, was saved and had its
    text [t] extracted, a false answer of [add_syllabus_materials] gives
    500 with the error Failed to process syllabus material, and a true
    answer gives 200 with success, the file name, the message and a
    preview: [t] itself when it has at most 500 characters, otherwise its
    first 500 characters followed by three dots. *)
Theorem syllabus_gateway_answer
    (request : Request) (env : Env) (file : FileStorage) (t : string) :
  passes_validation request file ->
  let name := secure_filename env (filename file) in
  let path := Py.os_path_join UPLOAD_FOLDER ("syllabus_" ++ name) in
  let metadata :=
    JObj [("education_level",
            JStr (form_get (form request) "education_level" "high_school"));
          ("subject", JStr (form_get (form request) "subject" "general"));
          ("upload_date", JStr (now_isoformat env))] in
  save env file path = Ok tt ->
  process_uploaded_file env path = Ok t ->
  (add_syllabus_materials env name t metadata = Ok false ->
   outcome (upload_syllabus request) env =
   Ok {| body := JObj [("error", JStr "Failed to process syllabus material")];
         status := 500 |}) /\
  (add_syllabus_materials env name t metadata = Ok true ->
   exists response preview,
     outcome (upload_syllabus request) env = Ok response /\
     status response = 200%Z /\
     field "success" response = Some (JBool true) /\
     field "filename" response = Some (JStr name) /\
     field "message" response =
       Some (JStr "Syllabus material embedded successfully") /\
     field "preview" response = Some (JStr preview) /\
     (500 < String.length t ->
      exists head tail,
        t = head ++ tail /\ String.length head = 500 /\
        preview = head ++ "...") /\
     (String.length t <= 500 -> preview = t)).
Proof.
  intros H name path metadata S P. subst name path metadata. split; intros A.
  - checks_passed H. now rewrite S, P, A.
  - checks_passed H. rewrite S, P, A. cbn [fst].
    do 2 eexists. split; [reflexivity|].
    repeat (split; [reflexivity|]).
    destruct (shown_text 500 t) as [Long Short]. split; [|exact Short].
    intros L. destruct (Long L) as (head & tail & ? & ? & ? & _).
    now exists head, tail.
Qed.

(** ** The JSON routes *)

(** C7. With a JSON object for a body, [/api/generate-content] answers
    400, Topic is required, without calling the generator when the topic
    is missing or empty; with a topic that is not empty and no
    content_type it calls the generator once, with content type
    explanation, and when the generator returns, the answer is 200 with
    success true and content_type explanation. *)
Theorem generate_content_topic
    (request : Request) (env : Env) (items : list (string * json)) :
  json_body request = Ok (JObj items) ->
  ((Py.lookup "topic" items = None \/
    exists v, Py.lookup "topic" items = Some v /\ Py.truthy v = false) ->
   run (generate_content request) env =
   (Ok {| body := JObj [("error", JStr "Topic is required")]; status := 400 |},
    [])) /\
  (Py.lookup "topic" items = Some (JStr "") ->
   run (generate_content request) env =
   (Ok {| body := JObj [("error", JStr "Topic is required")]; status := 400 |},
    [])) /\
  (forall topic,
      Py.lookup "topic" items = Some topic ->
      Py.truthy topic = true ->
      Py.lookup "content_type" items = None ->
      let level :=
        match Py.lookup "education_level" items with
        | Some v => v
        | None => JStr "high_school"
        end in
      let reference :=
        match Py.lookup "reference_material" items with
        | Some v => v
        | None => JStr ""
        end in
      calls (generate_content request) env =
        [CallGenerate topic level reference (JStr "explanation")] /\
      (forall result,
          ai_generate_content env topic level reference (JStr "explanation")
            = Ok result ->
          outcome (generate_content request) env =
          Ok {| body := JObj [("success", JBool true);
                              ("content", JStr result);
                              ("content_type", JStr "explanation")];
                status := 200 |})).
Proof.
  intros Hbody.
  assert ((Py.lookup "topic" items = None \/
           exists v, Py.lookup "topic" items = Some v /\ Py.truthy v = false) ->
          run (generate_content request) env =
          (Ok {| body := JObj [("error", JStr "Topic is required")];
                 status := 400 |}, [])) as Falsy.
  { intros [M | (v & M & F)]; json_route Hbody; rewrite M.
    - reflexivity.
    - now rewrite F. }
  repeat apply conj.
  - exact Falsy.
  - intros M. apply Falsy. right. now exists (JStr "").
  - intros topic M T C level reference. subst level reference. split.
    + json_route Hbody. rewrite M, C, T. cbn [negb].
      destruct (ai_generate_content env _ _ _ _); reflexivity.
    + intros result G. json_route Hbody. rewrite M, C, T. cbn [negb].
      now rewrite G.
Qed.

(** C8. [/api/health] answers 200 with the status healthy and the message
    Learnova AI is running!, whatever the environment, and calls nothing. *)
Theorem health_check_response (env : Env) :
  run health_check env =
  (Ok {| body := JObj [("status", JStr "healthy");
                       ("message", JStr "Learnova AI is running!")];
         status := 200 |},
   []).
Proof. reflexivity. Qed.

(** C9. Two requests to [/api/upload] that differ at most in the form
    field education_level get the same answer and make the same calls. *)
Theorem upload_ignores_education_level (r1 r2 : Request) (env : Env) :
  files r1 = files r2 ->
  json_body r1 = json_body r2 ->
  (forall key, key <> "education_level" ->
               Py.lookup key (form r1) = Py.lookup key (form r2)) ->
  run (upload_file r1) env = run (upload_file r2) env.
Proof.
  intros F _ _. unfold run, upload_file. now rewrite F.
Qed.

(** C10. [/api/generate-content] and [/api/chat] answer with a response,
    of status 200, 400 or 500, exactly when [request.json] is a JSON
    object. When it is None, [data.get] raises AttributeError before the
    topic or the question is looked at, and the exception leaves the
    handler, which has called nothing. *)
Theorem json_routes_need_object (request : Request) (env : Env) :
  (forall items,
      json_body request = Ok (JObj items) ->
      exists r1 r2,
        outcome (generate_content request) env = Ok r1 /\
        In (status r1) [200; 400; 500]%Z /\
        outcome (chat request) env = Ok r2 /\
        In (status r2) [200; 400; 500]%Z) /\
  (json_body request = Ok JNull ->
   let raised :=
     (@Err Response
        (Exn "AttributeError" "'NoneType' object has no attribute 'get'"),
      @nil event) in
   run (generate_content request) env = raised /\
   run (chat request) env = raised) /\
  (forall response,
      outcome (generate_content request) env = Ok response \/
      outcome (chat request) env = Ok response ->
      exists items, json_body request = Ok (JObj items)).
Proof.
  repeat apply conj.
  - intros items Hbody. json_route Hbody.
    destruct (Py.truthy (match Py.lookup "topic" items with
                         | Some v => v | None => JNull end));
      destruct (Py.truthy (match Py.lookup "question" items with
                           | Some v => v | None => JNull end));
      cbn [negb];
      try destruct (ai_generate_content env _ _ _ _);
      try destruct (ai_chat env _ _ _);
      do 2 eexists; cbn; intuition.
  - intros Hbody. cbv zeta. split; json_route Hbody; reflexivity.
  - intros response H.
    destruct (json_body request) as [[| | | | |items]|e] eqn:Hbody;
      try (now exists items);
      exfalso; destruct H as [H|H]; revert H;
      unfold outcome, run, generate_content, chat, bind, lift;
      rewrite Hbody; discriminate.
Qed.

(** ** The properties on concrete requests *)

Lemma notes_pass_validation (level : string) :
  passes_validation (upload_of "notes.txt" level) (part "notes.txt").
Proof. repeat split. discriminate. Qed.

(** The four ways through the checks: no file part, an empty name, a
    refused extension, and a text file that is saved and processed. *)
Lemma upload_validation_order_witness :
  run (upload_file (multipart [] [])) ok_env =
    (Ok {| body := JObj [("error", JStr "No file uploaded")]; status := 400 |}, []) /\
  run (upload_syllabus (upload_of "" "high_school")) ok_env =
    (Ok {| body := JObj [("error", JStr "No file selected")]; status := 400 |}, []) /\
  run (upload_file (upload_of "x.exe" "high_school")) ok_env =
    (Ok {| body := JObj [("error", JStr "Invalid file type")]; status := 400 |}, []) /\
  calls (upload_file (upload_of "notes.txt" "high_school")) ok_env =
    [CallSave (part "notes.txt") "static/uploads/notes.txt";
     CallProcess "static/uploads/notes.txt"].
Proof.
  split; [|split; [|split]].
  - destruct (upload_validation_order (multipart [] []) ok_env) as (H & _).
    exact (proj1 (H eq_refl)).
  - destruct (upload_validation_order (upload_of "" "high_school") ok_env)
      as (_ & H & _).
    exact (proj2 (H (part "") eq_refl eq_refl)).
  - destruct (upload_validation_order (upload_of "x.exe" "high_school") ok_env)
      as (_ & _ & H & _).
    refine (proj1 (H (part "x.exe") eq_refl _ eq_refl)). discriminate.
  - destruct (upload_validation_order (upload_of "notes.txt" "high_school") ok_env)
      as (_ & _ & _ & H & _).
    destruct (H (part "notes.txt") (notes_pass_validation _)) as (_ & _ & S & _).
    exact (S eq_refl).
Defined.

(** A text of 1500 letters is cut to 1000 and three dots. *)
Lemma upload_content_truncation_witness :
  passes_validation (upload_of "notes.txt" "high_school") (part "notes.txt") /\
  exists response,
    outcome (upload_file (upload_of "notes.txt" "high_school")) (letters 1500 true)
      = Ok response /\
    field "content" response = Some (JStr (replicate 1000 "a" ++ "...")).
Proof.
  split; [apply notes_pass_validation|].
  destruct (upload_content_truncation
              (upload_of "notes.txt" "high_school") (letters 1500 true)
              (part "notes.txt") (replicate 1500 "a")
              (notes_pass_validation _) eq_refl eq_refl)
    as (response & content & O & _ & _ & C & _).
  exists response. split; [exact O|].
  vm_compute in O. injection O as <-. vm_compute. reflexivity.
Defined.

(** C4 as stated fails: with a full disk [save] raises OSError, and both
    upload handlers let it through instead of answering 500. *)
Lemma save_failure_leaves_the_handler :
  run (upload_file (upload_of "notes.txt" "high_school")) full_disk =
    (Err (Exn "OSError" "[Errno 28] No space left on device"),
     [CallSave (part "notes.txt") "static/uploads/notes.txt"]) /\
  run (upload_syllabus (upload_of "notes.txt" "high_school")) full_disk =
    (Err (Exn "OSError" "[Errno 28] No space left on device"),
     [CallSave (part "notes.txt") "static/uploads/syllabus_notes.txt"]).
Proof. split; reflexivity. Qed.

(** A file that cannot be read is answered with 500; a disk that cannot
    be written to makes the handler raise; with every collaborator
    answering, the handler returns. *)
Lemma upload_failures_caught_witness :
  passes_validation (upload_of "notes.txt" "high_school") (part "notes.txt") /\
  outcome (upload_file (upload_of "notes.txt" "high_school")) unreadable =
    Ok {| body := JObj [("error",
                          JStr "Error processing file: Unsupported file format")];
          status := 500 |} /\
  outcome (upload_syllabus (upload_of "notes.txt" "high_school")) full_disk =
    Err (Exn "OSError" "[Errno 28] No space left on device") /\
  exists response,
    outcome (upload_syllabus (upload_of "notes.txt" "high_school")) ok_env
      = Ok response /\
    In (status response) [200; 500]%Z.
Proof.
  split; [apply notes_pass_validation|]. split; [|split].
  - destruct (upload_failures_caught
                (upload_of "notes.txt" "high_school") unreadable
                (part "notes.txt") (notes_pass_validation _))
      as (_ & _ & P & _).
    exact (P _ eq_refl eq_refl).
  - destruct (upload_failures_caught
                (upload_of "notes.txt" "high_school") full_disk
                (part "notes.txt") (notes_pass_validation _))
      as (_ & _ & _ & _ & _ & _ & S).
    exact (S _ eq_refl).
  - destruct (upload_failures_caught
                (upload_of "notes.txt" "high_school") ok_env
                (part "notes.txt") (notes_pass_validation _))
      as (_ & R & _).
    exact (R eq_refl).
Defined.

(** C5 as stated fails: the file is stored as syllabus_plan.pdf, while the
    response and the call of [add_syllabus_materials] name plan.pdf. *)
Lemma syllabus_reports_the_unprefixed_name :
  run (upload_syllabus (upload_of "plan.pdf" "high_school")) ok_env =
    (Ok {| body :=
             JObj [("success", JBool true);
                   ("filename", JStr "plan.pdf");
                   ("message", JStr "Syllabus material embedded successfully");
                   ("preview", JStr "Photosynthesis turns light into sugar.")];
           status := 200 |},
     [CallSave (part "plan.pdf") "static/uploads/syllabus_plan.pdf";
      CallProcess "static/uploads/syllabus_plan.pdf";
      CallAddSyllabus "plan.pdf" "Photosynthesis turns light into sugar."
        (JObj [("education_level", JStr "high_school");
               ("subject", JStr "general");
               ("upload_date", JStr "2024-05-01T09:30:00.000000")])]) /\
  "syllabus_plan.pdf" <> "plan.pdf".
Proof. split; [reflexivity | discriminate]. Qed.

Lemma syllabus_stored_and_reported_names_witness :
  exists response text metadata,
    outcome (upload_syllabus (upload_of "plan.pdf" "high_school")) ok_env
      = Ok response /\
    status response = 200%Z /\
    calls (upload_syllabus (upload_of "plan.pdf" "high_school")) ok_env =
      [CallSave (part "plan.pdf") "static/uploads/syllabus_plan.pdf";
       CallProcess "static/uploads/syllabus_plan.pdf";
       CallAddSyllabus "plan.pdf" text metadata] /\
    field "filename" response = Some (JStr "plan.pdf").
Proof.
  destruct (syllabus_stored_and_reported_names
              (upload_of "plan.pdf" "high_school") ok_env _ eq_refl eq_refl)
    as (file & text & metadata & (Hfile & _) & C & F & _).
  cbv in Hfile. injection Hfile as <-.
  eexists _, text, metadata.
  split; [reflexivity|]. split; [reflexivity|]. split; [exact C | exact F].
Defined.

(** A gateway that answers false, and one that answers true on a text of
    600 letters. *)
Lemma syllabus_gateway_answer_witness :
  outcome (upload_syllabus (upload_of "notes.txt" "high_school")) (letters 600 false) =
    Ok {| body := JObj [("error", JStr "Failed to process syllabus material")];
          status := 500 |} /\
  exists response,
    outcome (upload_syllabus (upload_of "notes.txt" "high_school")) (letters 600 true)
      = Ok response /\
    status response = 200%Z /\
    field "preview" response = Some (JStr (replicate 500 "a" ++ "...")).
Proof.
  split.
  - exact (proj1 (syllabus_gateway_answer
                    (upload_of "notes.txt" "high_school") (letters 600 false)
                    (part "notes.txt") (replicate 600 "a")
                    (notes_pass_validation _) eq_refl eq_refl) eq_refl).
  - destruct (proj2 (syllabus_gateway_answer
                       (upload_of "notes.txt" "high_school") (letters 600 true)
                       (part "notes.txt") (replicate 600 "a")
                       (notes_pass_validation _) eq_refl eq_refl) eq_refl)
      as (response & preview & O & S & _).
    exists response. split; [exact O|]. split; [exact S|].
    vm_compute in O. injection O as <-. vm_compute. reflexivity.
Defined.

(** An empty topic, and the topic Photosynthesis with nothing else. *)
Lemma generate_content_topic_witness :
  run (generate_content (json_request (Ok (JObj [("topic", JStr "")])))) ok_env =
    (Ok {| body := JObj [("error", JStr "Topic is required")]; status := 400 |},
     []) /\
  run (generate_content
         (json_request (Ok (JObj [("topic", JStr "Photosynthesis")])))) ok_env =
    (Ok {| body := JObj [("success", JBool true);
                         ("content", JStr "Plants make their food from light.");
                         ("content_type", JStr "explanation")];
           status := 200 |},
     [CallGenerate (JStr "Photosynthesis") (JStr "high_school") (JStr "")
        (JStr "explanation")]).
Proof.
  split.
  - exact (proj1 (proj2 (generate_content_topic
                           (json_request (Ok (JObj [("topic", JStr "")]))) ok_env
                           _ eq_refl)) eq_refl).
  - destruct (generate_content_topic
                (json_request (Ok (JObj [("topic", JStr "Photosynthesis")])))
                ok_env _ eq_refl) as (_ & _ & H).
    destruct (H (JStr "Photosynthesis") eq_refl eq_refl eq_refl) as (C & O).
    specialize (O _ eq_refl). unfold outcome, calls in *.
    destruct (run _ ok_env) as [o c]. simpl in *. now subst.
Defined.

(** Two uploads of the same file, for a high school and for a university. *)
Lemma upload_ignores_education_level_witness :
  upload_of "notes.txt" "high_school" <> upload_of "notes.txt" "university" /\
  run (upload_file (upload_of "notes.txt" "high_school")) ok_env =
  run (upload_file (upload_of "notes.txt" "university")) ok_env.
Proof.
  split; [discriminate|].
  apply upload_ignores_education_level; [reflexivity | reflexivity |].
  intros key N. unfold upload_of, multipart. cbn [form Py.lookup].
  destruct (String.eqb_spec "education_level" key) as [E|_]; [|reflexivity].
  now subst.
Defined.

(** A body that is not JSON, and the body [{}]. *)
Lemma json_routes_need_object_witness :
  run (chat (json_request (Ok JNull))) ok_env =
    (Err (Exn "AttributeError" "'NoneType' object has no attribute 'get'"), []) /\
  outcome (chat (json_request (Ok (JObj [])))) ok_env =
    Ok {| body := JObj [("error", JStr "Question is required")]; status := 400 |}.
Proof.
  split.
  - destruct (json_routes_need_object (json_request (Ok JNull)) ok_env)
      as (_ & H & _).
    exact (proj2 (H eq_refl)).
  - destruct (json_routes_need_object (json_request (Ok (JObj []))) ok_env)
      as (H & _).
    destruct (H [] eq_refl) as (r1 & r2 & _ & _ & O & _).
    rewrite O. vm_compute in O. injection O as <-. reflexivity.
Defined.

(** ** Every way a route can run *)

Lemma upload_file_cases (request : Request) (env : Env) :
  (Py.lookup "file" (files request) = None /\
   run (upload_file request) env = (Ok (error "No file uploaded" 400), [])) \/
  exists file,
    Py.lookup "file" (files request) = Some file /\
    ((filename file = "" /\
      run (upload_file request) env = (Ok (error "No file selected" 400), [])) \/
     (filename file <> "" /\ allowed_file (filename file) = Ok false /\
      run (upload_file request) env = (Ok (error "Invalid file type" 400), [])) \/
     (passes_validation request file /\
      let name := secure_filename env (filename file) in
      let path := Py.os_path_join UPLOAD_FOLDER name in
      (exists e,
          save env file path = Err e /\
          run (upload_file request) env = (Err e, [CallSave file path])) \/
      (save env file path = Ok tt /\
       ((exists e,
            process_uploaded_file env path = Err e /\
            run (upload_file request) env =
            (Ok (error ("Error processing file: " ++ exn_str e) 500),
             [CallSave file path; CallProcess path])) \/
        (exists t,
            process_uploaded_file env path = Ok t /\
            run (upload_file request) env =
            (Ok (jsonify [("success", JBool true);
                          ("filename", JStr name);
                          ("content", JStr (shown 1000 t));
                          ("message", JStr "File processed successfully")]),
             [CallSave file path; CallProcess path])))))).
Proof.
  destruct (Py.lookup "file" (files request)) as [file|] eqn:Hfile.
  - right. exists file. split; [reflexivity|].
    destruct (String.eqb_spec (filename file) "") as [E|N].
    + left. split; [exact E|]. unfold run, upload_file. now rewrite Hfile, E.
    + right. destruct (allowed_file_total (filename file)) as [A|A].
      * right. assert (passes_validation request file) as H by now repeat split.
        split; [exact H|]. cbv zeta. checks_passed H.
        destruct (save env file _) as [[]|e]; [right | left; now exists e].
        split; [reflexivity|].
        destruct (process_uploaded_file env _) as [t|e];
          [right; now exists t | left; now exists e].
      * left. split; [exact N|]. split; [exact A|].
        apply String.eqb_neq in N.
        unfold run, upload_file, FileStorage_bool, bind, lift.
        now rewrite Hfile, N, A.
  - left. split; [reflexivity|]. unfold run, upload_file. now rewrite Hfile.
Qed.

Lemma upload_syllabus_cases (request : Request) (env : Env) :
  (Py.lookup "file" (files request) = None /\
   run (upload_syllabus request) env = (Ok (error "No file uploaded" 400), [])) \/
  exists file,
    Py.lookup "file" (files request) = Some file /\
    ((filename file = "" /\
      run (upload_syllabus request) env = (Ok (error "No file selected" 400), [])) \/
     (filename file <> "" /\ allowed_file (filename file) = Ok false /\
      run (upload_syllabus request) env = (Ok (error "Invalid file type" 400), [])) \/
     (passes_validation request file /\
      let name := secure_filename env (filename file) in
      let path := "static/uploads/syllabus_" ++ name in
      let metadata := syllabus_metadata request env in
      (exists e,
          save env file path = Err e /\
          run (upload_syllabus request) env = (Err e, [CallSave file path])) \/
      (save env file path = Ok tt /\
       ((exists e,
            process_uploaded_file env path = Err e /\
            run (upload_syllabus request) env =
            (Ok (error ("Error processing syllabus: " ++ exn_str e) 500),
             [CallSave file path; CallProcess path])) \/
        (exists t,
            process_uploaded_file env path = Ok t /\
            ((exists e,
                 add_syllabus_materials env name t metadata = Err e /\
                 run (upload_syllabus request) env =
                 (Ok (error ("Error processing syllabus: " ++ exn_str e) 500),
                  [CallSave file path; CallProcess path;
                   CallAddSyllabus name t metadata])) \/
             (add_syllabus_materials env name t metadata = Ok false /\
              run (upload_syllabus request) env =
              (Ok (error "Failed to process syllabus material" 500),
               [CallSave file path; CallProcess path;
                CallAddSyllabus name t metadata])) \/
             (add_syllabus_materials env name t metadata = Ok true /\
              run (upload_syllabus request) env =
              (Ok (jsonify
                     [("success", JBool true);
                      ("filename", JStr name);
                      ("message", JStr "Syllabus material embedded successfully");
                      ("preview", JStr (shown 500 t))]),
               [CallSave file path; CallProcess path;
                CallAddSyllabus name t metadata])))))))).
Proof.
  destruct (Py.lookup "file" (files request)) as [file|] eqn:Hfile.
  - right. exists file. split; [reflexivity|].
    destruct (String.eqb_spec (filename file) "") as [E|N].
    + left. split; [exact E|]. unfold run, upload_syllabus. now rewrite Hfile, E.
    + right. destruct (allowed_file_total (filename file)) as [A|A].
      * right. assert (passes_validation request file) as H by now repeat split.
        split; [exact H|]. cbv zeta. unfold syllabus_metadata.
        checks_passed H. rewrite syllabus_path_eq.
        destruct (save env file _) as [[]|e]; [right | left; now exists e].
        split; [reflexivity|].
        destruct (process_uploaded_file env _) as [t|e];
          [right; exists t; split; [reflexivity|] | left; now exists e].
        destruct (add_syllabus_materials env _ _ _) as [[|]|e];
          [right; right | right; left | left; exists e]; now split.
      * left. split; [exact N|]. split; [exact A|].
        apply String.eqb_neq in N.
        unfold run, upload_syllabus, FileStorage_bool, bind, lift.
        now rewrite Hfile, N, A.
  - left. split; [reflexivity|]. unfold run, upload_syllabus. now rewrite Hfile.
Qed.

Lemma object_or_not (v : json) :
  (exists items, v = JObj items) \/ forall items, v <> JObj items.
Proof.
  destruct v; try (right; discriminate). left. eexists. reflexivity.
Qed.

Lemma generate_content_cases (request : Request) (env : Env) :
  (exists e,
      json_body request = Err e /\
      run (generate_content request) env = (Err e, [])) \/
  (exists v,
      json_body request = Ok v /\ (forall items, v <> JObj items) /\
      run (generate_content request) env = (Err (attribute_error v), [])) \/
  exists items,
    json_body request = Ok (JObj items) /\
    let topic := item_or JNull "topic" items in
    let level := item_or (JStr "high_school") "education_level" items in
    let reference := item_or (JStr "") "reference_material" items in
    let content_type := item_or (JStr "explanation") "content_type" items in
    (Py.truthy topic = false /\
     run (generate_content request) env =
     (Ok (error "Topic is required" 400), [])) \/
    (Py.truthy topic = true /\
     ((exists e,
          ai_generate_content env topic level reference content_type = Err e /\
          run (generate_content request) env =
          (Ok (error ("Error generating content: " ++ exn_str e) 500),
           [CallGenerate topic level reference content_type])) \/
      (exists result,
          ai_generate_content env topic level reference content_type = Ok result /\
          run (generate_content request) env =
          (Ok (jsonify [("success", JBool true);
                        ("content", JStr result);
                        ("content_type", content_type)]),
           [CallGenerate topic level reference content_type])))).
Proof.
  destruct (json_body request) as [v|e] eqn:Hbody.
  - right. destruct (object_or_not v) as [[items ->]|Hv].
    + right. exists items. split; [reflexivity|]. cbv zeta. unfold item_or.
      json_route Hbody.
      destruct (Py.truthy _); cbn [negb]; [right | left; now split].
      split; [reflexivity|].
      destruct (ai_generate_content env _ _ _ _) as [r|e];
        [right; now exists r | left; now exists e].
    + left. exists v. split; [reflexivity|]. split; [exact Hv|].
      json_route Hbody. destruct v; try reflexivity. now destruct (Hv items).
  - left. exists e. split; [reflexivity|]. now json_route Hbody.
Qed.

Lemma chat_cases (request : Request) (env : Env) :
  (exists e,
      json_body request = Err e /\
      run (chat request) env = (Err e, [])) \/
  (exists v,
      json_body request = Ok v /\ (forall items, v <> JObj items) /\
      run (chat request) env = (Err (attribute_error v), [])) \/
  exists items,
    json_body request = Ok (JObj items) /\
    let question := item_or JNull "question" items in
    let level := item_or (JStr "high_school") "education_level" items in
    let context := item_or (JStr "") "context" items in
    (Py.truthy question = false /\
     run (chat request) env = (Ok (error "Question is required" 400), [])) \/
    (Py.truthy question = true /\
     ((exists e,
          ai_chat env question level context = Err e /\
          run (chat request) env =
          (Ok (error ("Error in chat: " ++ exn_str e) 500),
           [CallChat question level context])) \/
      (exists answer,
          ai_chat env question level context = Ok answer /\
          run (chat request) env =
          (Ok (jsonify [("success", JBool true); ("response", JStr answer)]),
           [CallChat question level context])))).
Proof.
  destruct (json_body request) as [v|e] eqn:Hbody.
  - right. destruct (object_or_not v) as [[items ->]|Hv].
    + right. exists items. split; [reflexivity|]. cbv zeta. unfold item_or.
      json_route Hbody.
      destruct (Py.truthy _); cbn [negb]; [right | left; now split].
      split; [reflexivity|].
      destruct (ai_chat env _ _ _) as [r|e];
        [right; now exists r | left; now exists e].
    + left. exists v. split; [reflexivity|]. split; [exact Hv|].
      json_route Hbody. destruct v; try reflexivity. now destruct (Hv items).
  - left. exists e. split; [reflexivity|]. now json_route Hbody.
Qed.

Lemma list_syllabus_cases (env : Env) :
  (exists e,
      list_uploaded_syllabus env = Err e /\
      run list_syllabus env =
      (Ok (error ("Error listing materials: " ++ exn_str e) 500),
       [CallListSyllabus])) \/
  (exists materials,
      list_uploaded_syllabus env = Ok materials /\
      run list_syllabus env =
      (Ok (jsonify [("success", JBool true); ("materials", materials)]),
       [CallListSyllabus])).
Proof.
  unfold run, list_syllabus, try_except, bind, call, ret. cbn [app].
  destruct (list_uploaded_syllabus env) as [m|e];
    [right; now exists m | left; now exists e].
Qed.

Lemma route_cases (method path : string) (view : Request -> handler Response)
    (P : Prop) :
  In (method, path, view) api_routes ->
  (view = upload_file -> P) ->
  (view = upload_syllabus -> P) ->
  (view = (fun _ => list_syllabus) -> P) ->
  (view = generate_content -> P) ->
  (view = chat -> P) ->
  (view = (fun _ => health_check) -> P) ->
  P.
Proof.
  intros H. simpl in H.
  repeat (destruct H as [H|H]; [injection H as _ _ <-; auto|]).
  contradiction.
Qed.

(** One goal for each way [upload_file] can run. *)
Ltac upload_file_ways request env :=
  destruct (upload_file_cases request env)
    as [(Hfile & Hrun)
       |(file & Hfile &
         [(_ & Hrun)
         |[(_ & _ & Hrun)
          |(V & [(e' & S & Hrun)
                |(S & [(e' & P & Hrun) | (t & P & Hrun)])])]])].

(** One goal for each way [upload_syllabus] can run. *)
Ltac upload_syllabus_ways request env :=
  destruct (upload_syllabus_cases request env)
    as [(Hfile & Hrun)
       |(file & Hfile &
         [(_ & Hrun)
         |[(_ & _ & Hrun)
          |(V & [(e' & S & Hrun)
                |(S & [(e' & P & Hrun)
                      |(t & P & [(e' & A & Hrun)
                                |[(A & Hrun) | (A & Hrun)]])])])]])].

(** One goal for each way a JSON route can run. *)
Ltac json_route_ways cases :=
  destruct cases
    as [(e' & Hbody & Hrun)
       |[(v & Hbody & Hv & Hrun)
        |(items & Hbody &
          [(T & Hrun)
          |(T & [(e' & G & Hrun) | (answer & G & Hrun)])])]].

(** One goal for each way a registered view can run, the run rewritten. *)
Ltac every_run R request env :=
  apply (route_cases _ _ _ _ R); clear R; intros ->;
  [ upload_file_ways request env
  | upload_syllabus_ways request env
  | destruct (list_syllabus_cases env)
      as [(e' & L & Hrun) | (materials & L & Hrun)]
  | json_route_ways (generate_content_cases request env)
  | json_route_ways (chat_cases request env)
  | assert (run health_check env =
            (Ok (jsonify [("status", JStr "healthy");
                          ("message", JStr "Learnova AI is running!")]), []))
      as Hrun by reflexivity ];
  unfold outcome, calls;
  match goal with H : run _ _ = _ |- _ => rewrite H end; cbn [fst snd].

Lemma shown_length (n : nat) (t : string) :
  String.length (shown n t) =
  if Nat.ltb n (String.length t) then n + 3 else String.length t.
Proof.
  unfold shown. destruct (Nat.ltb_spec n (String.length t)) as [L|L];
    [|reflexivity].
  destruct (slice_to_prefix n t) as (tail & _ & Len).
  rewrite length_append, Len. change (String.length "...") with 3. lia.
Qed.

Lemma length_replicate (n : nat) (c : ascii) :
  String.length (replicate n c) = n.
Proof. induction n as [|n IH]; simpl; [reflexivity | now rewrite IH]. Qed.

Lemma upload_path_eq (name : string) :
  (forall c rest, name = String c rest -> c <> "/"%char ->
                  Py.os_path_join UPLOAD_FOLDER name = "static/uploads/" ++ name) /\
  (forall rest, name = String "/" rest ->
                Py.os_path_join UPLOAD_FOLDER name = name) /\
  (name = "" -> Py.os_path_join UPLOAD_FOLDER name = "static/uploads/").
Proof.
  repeat apply conj.
  - intros c rest -> N. unfold Py.os_path_join.
    destruct c as [[] [] [] [] [] [] [] []]; try reflexivity.
    now destruct N.
  - now intros rest ->.
  - now intros ->.
Qed.

Lemma allowed_file_of_parts (stem ext : string) :
  Py.str_in "." ext = false ->
  allowed_file (stem ++ "." ++ ext) =
  Ok (Py.set_in (Py.lower ext) ALLOWED_EXTENSIONS).
Proof.
  intros H.
  assert (Py.rcut "." (stem ++ "." ++ ext) = Some (stem, ext)) as Hcut
    by now apply rcut_some.
  unfold allowed_file, Py.rsplit1. rewrite Hcut.
  destruct (Py.str_in "." (stem ++ "." ++ ext)) eqn:Hin; [reflexivity|].
  apply rcut_none in Hin. congruence.
Qed.


(** ** What holds of every registered view *)

(** X1. A response of any API view is of one of two kinds: status 200
    with no error field and success true (or, for the health check, status
    healthy), or status 400 or 500 with a body that is exactly one error
    message. *)
Theorem response_is_success_or_error (method path : string)
    (view : Request -> handler Response) (request : Request) (env : Env)
    (response : Response) :
  In (method, path, view) api_routes ->
  outcome (view request) env = Ok response ->
  (status response = 200%Z /\
   field "error" response = None /\
   (field "success" response = Some (JBool true) \/
    field "status" response = Some (JStr "healthy"))) \/
  (In (status response) [400; 500]%Z /\
   exists message, body response = JObj [("error", JStr message)]).
Proof.
  intros R. every_run R request env; intros O; try discriminate;
    injection O as <-;
    solve [ left; repeat split; auto
          | right; split; [simpl; auto | eexists; reflexivity] ].
Qed.

Lemma response_is_success_or_error_witness :
  In ("POST", "/api/chat", chat) api_routes /\
  ((status (error "Question is required" 400) = 200%Z /\
    field "error" (error "Question is required" 400) = None /\
    (field "success" (error "Question is required" 400) = Some (JBool true) \/
     field "status" (error "Question is required" 400) = Some (JStr "healthy"))) \/
   (In (status (error "Question is required" 400)) [400; 500]%Z /\
    exists message,
      body (error "Question is required" 400) = JObj [("error", JStr message)])).
Proof.
  assert (In ("POST", "/api/chat", chat) api_routes) as R by (simpl; tauto).
  split; [exact R|].
  exact (response_is_success_or_error "POST" "/api/chat" chat
           (json_request (Ok (JObj []))) ok_env _ R eq_refl).
Defined.

(** X2. A view that answers 400 has called nothing outside the process,
    and a view that answers 500 has called a collaborator: a refusal never
    follows a write, and a 500 never comes from validation. *)
Theorem refusals_call_nothing (method path : string)
    (view : Request -> handler Response) (request : Request) (env : Env)
    (response : Response) :
  In (method, path, view) api_routes ->
  outcome (view request) env = Ok response ->
  (status response = 400%Z -> calls (view request) env = []) /\
  (status response = 500%Z -> calls (view request) env <> []).
Proof.
  intros R. every_run R request env; intros O; try discriminate;
    injection O as <-; split; intros St; try discriminate St;
    try reflexivity; discriminate.
Qed.

Lemma refusals_call_nothing_witness :
  calls (upload_syllabus (upload_of "x.exe" "high_school")) ok_env = [] /\
  calls (upload_syllabus (upload_of "notes.txt" "high_school")) unreadable <> [].
Proof.
  assert (In ("POST", "/api/syllabus/upload", upload_syllabus) api_routes) as R
    by (simpl; tauto).
  split.
  - exact (proj1 (refusals_call_nothing _ _ _
                    (upload_of "x.exe" "high_school") ok_env _ R eq_refl) eq_refl).
  - exact (proj2 (refusals_call_nothing _ _ _
                    (upload_of "notes.txt" "high_school") unreadable _ R eq_refl)
             eq_refl).
Defined.

(** ** More on the upload routes *)

(** X3. Once [request.files] has been read, the only exception that
    leaves an upload handler is the one [file.save] raised: without a
    file part neither handler raises, and with the part [file] an
    exception that leaves the handler means that the request passed
    validation, that [save] raised that exception, and that the handler
    made that one call and no other. *)
Theorem only_save_raises_in_uploads (request : Request) (env : Env) (e : exn) :
  (Py.lookup "file" (files request) = None ->
   outcome (upload_file request) env <> Err e /\
   outcome (upload_syllabus request) env <> Err e) /\
  (forall file,
      Py.lookup "file" (files request) = Some file ->
      (outcome (upload_file request) env = Err e ->
       passes_validation request file /\
       let path :=
         Py.os_path_join UPLOAD_FOLDER (secure_filename env (filename file)) in
       save env file path = Err e /\
       calls (upload_file request) env = [CallSave file path]) /\
      (outcome (upload_syllabus request) env = Err e ->
       passes_validation request file /\
       let path :=
         "static/uploads/syllabus_" ++ secure_filename env (filename file) in
       save env file path = Err e /\
       calls (upload_syllabus request) env = [CallSave file path])).
Proof.
  split.
  - intros N. unfold outcome, run, upload_file, upload_syllabus.
    rewrite N. split; discriminate.
  - intros file0 Hfile0. split.
    + upload_file_ways request env;
        unfold outcome, calls; rewrite Hrun; cbn [fst snd]; intros O;
        try discriminate.
      injection O as ->.
      assert (file0 = file) as -> by congruence. now split.
    + upload_syllabus_ways request env;
        unfold outcome, calls; rewrite Hrun; cbn [fst snd]; intros O;
        try discriminate.
      injection O as ->.
      assert (file0 = file) as -> by congruence. now split.
Qed.

Lemma only_save_raises_in_uploads_witness :
  Py.lookup "file" (files (upload_of "notes.txt" "high_school"))
    = Some (part "notes.txt") /\
  outcome (upload_file (upload_of "notes.txt" "high_school")) full_disk
    = Err (Exn "OSError" "[Errno 28] No space left on device") /\
  calls (upload_file (upload_of "notes.txt" "high_school")) full_disk =
    [CallSave (part "notes.txt") "static/uploads/notes.txt"].
Proof.
  split; [reflexivity|]. split; [reflexivity|].
  destruct (proj1 (proj2 (only_save_raises_in_uploads
                            (upload_of "notes.txt" "high_school") full_disk _)
                     (part "notes.txt") eq_refl) eq_refl)
    as (_ & _ & C).
  exact C.
Defined.

(** X4. The outside calls of an upload come in one order: the save of the
    request's file, then, only if the save returned, the processing of the
    very path that was saved, then, for a syllabus and only if the
    processing returned a text, [add_syllabus_materials] with that text
    and the sanitised name. [upload_file] never reaches the gateway. *)
Theorem upload_calls_in_order (request : Request) (env : Env) :
  (calls (upload_file request) env = [] \/
   exists file path,
     Py.lookup "file" (files request) = Some file /\
     (calls (upload_file request) env = [CallSave file path] \/
      save env file path = Ok tt /\
      calls (upload_file request) env = [CallSave file path; CallProcess path])) /\
  (calls (upload_syllabus request) env = [] \/
   exists file path,
     Py.lookup "file" (files request) = Some file /\
     (calls (upload_syllabus request) env = [CallSave file path] \/
      save env file path = Ok tt /\
      (calls (upload_syllabus request) env =
         [CallSave file path; CallProcess path] \/
       exists text metadata,
         process_uploaded_file env path = Ok text /\
         calls (upload_syllabus request) env =
           [CallSave file path; CallProcess path;
            CallAddSyllabus (secure_filename env (filename file)) text metadata]))).
Proof.
  split.
  - upload_file_ways request env;
      unfold calls; rewrite Hrun; cbn [snd];
      try (left; reflexivity);
      right; do 2 eexists; (split; [exact Hfile|]);
      first [left; reflexivity | right; split; [exact S | reflexivity]].
  - upload_syllabus_ways request env;
      unfold calls; rewrite Hrun; cbn [snd];
      try (left; reflexivity);
      right; do 2 eexists; (split; [exact Hfile|]);
      try (left; reflexivity);
      right; (split; [exact S|]);
      try (left; reflexivity);
      right; do 2 eexists; (split; [exact P|]); reflexivity.
Qed.

(** X5. An upload answered with 200 passed validation, was saved and
    processed, in that order and with nothing else called; the response
    names the sanitised file name, not the name the client sent, and
    carries the shown part of the extracted text and the fixed message. *)
Theorem upload_success_response
    (request : Request) (env : Env) (response : Response) :
  outcome (upload_file request) env = Ok response ->
  status response = 200%Z ->
  exists file text,
    passes_validation request file /\
    let name := secure_filename env (filename file) in
    let path := Py.os_path_join UPLOAD_FOLDER name in
    save env file path = Ok tt /\
    process_uploaded_file env path = Ok text /\
    calls (upload_file request) env = [CallSave file path; CallProcess path] /\
    body response =
      JObj [("success", JBool true);
            ("filename", JStr name);
            ("content", JStr (shown 1000 text));
            ("message", JStr "File processed successfully")].
Proof.
  upload_file_ways request env;
    unfold outcome, calls; rewrite Hrun; cbn [fst snd]; intros O St;
    try discriminate; injection O as <-; try discriminate St.
  now exists file, t.
Qed.

Lemma upload_success_response_witness :
  calls (upload_file (upload_of "My Notes.TXT" "high_school")) ok_env =
    [CallSave (part "My Notes.TXT") "static/uploads/My_Notes.TXT";
     CallProcess "static/uploads/My_Notes.TXT"] /\
  field "filename"
    (jsonify [("success", JBool true);
              ("filename", JStr "My_Notes.TXT");
              ("content", JStr "Photosynthesis turns light into sugar.");
              ("message", JStr "File processed successfully")])
  = Some (JStr "My_Notes.TXT").
Proof.
  destruct (upload_success_response
              (upload_of "My Notes.TXT" "high_school") ok_env
              (jsonify [("success", JBool true);
                        ("filename", JStr "My_Notes.TXT");
                        ("content", JStr "Photosynthesis turns light into sugar.");
                        ("message", JStr "File processed successfully")])
              eq_refl eq_refl)
    as (file & text & (Hfile & _) & _ & _ & C & _).
  cbv in Hfile. injection Hfile as <-. split; [exact C | reflexivity].
Defined.

(** X6. The content of a successful upload never has more than 1003
    characters and the preview of a successful syllabus upload never more
    than 503; but the ellipsis makes the shown text longer than the
    extracted text when that text exceeds the limit by one or two
    characters. *)
Theorem shown_text_lengths (request : Request) (env : Env) (response : Response) :
  status response = 200%Z ->
  (outcome (upload_file request) env = Ok response ->
   exists file text content,
     Py.lookup "file" (files request) = Some file /\
     process_uploaded_file env
       (Py.os_path_join UPLOAD_FOLDER (secure_filename env (filename file)))
       = Ok text /\
     field "content" response = Some (JStr content) /\
     String.length content <= 1003 /\
     (String.length text < String.length content <->
      1000 < String.length text < 1003)) /\
  (outcome (upload_syllabus request) env = Ok response ->
   exists file text preview,
     Py.lookup "file" (files request) = Some file /\
     process_uploaded_file env
       ("static/uploads/syllabus_" ++ secure_filename env (filename file))
       = Ok text /\
     field "preview" response = Some (JStr preview) /\
     String.length preview <= 503 /\
     (String.length text < String.length preview <->
      500 < String.length text < 503)).
Proof.
  intros St. split.
  - upload_file_ways request env;
      unfold outcome; rewrite Hrun; cbn [fst]; intros O;
      try discriminate; injection O as <-; try discriminate St.
    exists file, t. eexists. split; [exact Hfile|]. split; [exact P|].
    split; [reflexivity|]. rewrite shown_length.
    destruct (Nat.ltb_spec 1000 (String.length t)); lia.
  - upload_syllabus_ways request env;
      unfold outcome; rewrite Hrun; cbn [fst]; intros O;
      try discriminate; injection O as <-; try discriminate St.
    exists file, t. eexists. split; [exact Hfile|]. split; [exact P|].
    split; [reflexivity|]. rewrite shown_length.
    destruct (Nat.ltb_spec 500 (String.length t)); lia.
Qed.

(** A text of 501 letters gets a preview of 503 characters. *)
Lemma shown_text_lengths_witness :
  exists preview,
    field "preview"
      (jsonify [("success", JBool true);
                ("filename", JStr "notes.txt");
                ("message", JStr "Syllabus material embedded successfully");
                ("preview", JStr (shown 500 (replicate 501 "a")))])
    = Some (JStr preview) /\
    String.length (replicate 501 "a") < String.length preview.
Proof.
  destruct (proj2 (shown_text_lengths
                     (upload_of "notes.txt" "high_school") (letters 501 true)
                     (jsonify
                        [("success", JBool true);
                         ("filename", JStr "notes.txt");
                         ("message", JStr "Syllabus material embedded successfully");
                         ("preview", JStr (shown 500 (replicate 501 "a")))])
                     eq_refl) eq_refl)
    as (file & text & preview & _ & P & F & _ & L).
  change (Ok (replicate 501 "a") = Ok text) in P. injection P as <-.
  exists preview. split; [exact F|]. apply L.
  change (500 < String.length (replicate 501 "a") < 503).
  rewrite length_replicate. lia.
Defined.

(** X7. [allowed_file] reads nothing but the part after the last dot, and
    that part without regard to case: two names whose last extensions
    agree up to case get the same answer, whatever stands before the dot
    (directories, other extensions, nothing at all). *)
Theorem allowed_file_reads_last_extension (stem1 stem2 ext1 ext2 : string) :
  Py.str_in "." ext1 = false ->
  Py.str_in "." ext2 = false ->
  Py.lower ext1 = Py.lower ext2 ->
  allowed_file (stem1 ++ "." ++ ext1) = allowed_file (stem2 ++ "." ++ ext2).
Proof.
  intros H1 H2 E. rewrite !allowed_file_of_parts by assumption. now rewrite E.
Qed.

Lemma allowed_file_reads_last_extension_witness :
  allowed_file "../../etc/shadow.exe.PdF" = allowed_file ".pdf".
Proof.
  exact (allowed_file_reads_last_extension "../../etc/shadow.exe" "" "PdF" "pdf"
           eq_refl eq_refl eq_refl).
Defined.

(** X8. A syllabus upload that reaches the gateway sends it a metadata
    dict of exactly three entries: the form's education_level, or
    high_school when the form has none; the form's subject, or general;
    and the time of the upload. *)
Theorem syllabus_metadata_sent
    (request : Request) (env : Env) (file : FileStorage) (text : string) :
  passes_validation request file ->
  let name := secure_filename env (filename file) in
  let path := "static/uploads/syllabus_" ++ name in
  save env file path = Ok tt ->
  process_uploaded_file env path = Ok text ->
  exists level subject,
    calls (upload_syllabus request) env =
      [CallSave file path; CallProcess path;
       CallAddSyllabus name text
         (JObj [("education_level", JStr level);
                ("subject", JStr subject);
                ("upload_date", JStr (now_isoformat env))])] /\
    (Py.lookup "education_level" (form request) = None -> level = "high_school") /\
    (forall v, Py.lookup "education_level" (form request) = Some v -> level = v) /\
    (Py.lookup "subject" (form request) = None -> subject = "general") /\
    (forall v, Py.lookup "subject" (form request) = Some v -> subject = v).
Proof.
  intros V name path S P. subst name path.
  exists (form_get (form request) "education_level" "high_school"),
         (form_get (form request) "subject" "general").
  split.
  - checks_passed V. rewrite syllabus_path_eq, S, P.
    destruct (add_syllabus_materials env _ _ _) as [[|]|]; reflexivity.
  - unfold form_get. repeat split; intros; now rewrite H.
Qed.

Lemma syllabus_metadata_sent_witness :
  calls (upload_syllabus (upload_of "notes.txt" "university")) ok_env =
    [CallSave (part "notes.txt") "static/uploads/syllabus_notes.txt";
     CallProcess "static/uploads/syllabus_notes.txt";
     CallAddSyllabus "notes.txt" "Photosynthesis turns light into sugar."
       (JObj [("education_level", JStr "university");
              ("subject", JStr "general");
              ("upload_date", JStr "2024-05-01T09:30:00.000000")])].
Proof.
  destruct (syllabus_metadata_sent
              (upload_of "notes.txt" "university") ok_env (part "notes.txt")
              "Photosynthesis turns light into sugar."
              (notes_pass_validation _) eq_refl eq_refl)
    as (level & subject & C & _ & L & S & _).
  rewrite (L "university" eq_refl), (S eq_refl) in C. exact C.
Defined.

(** X9. Where an upload is written. A syllabus always goes to
    static/uploads/syllabus_ followed by the sanitised name. A plain
    upload goes to static/uploads/ followed by the sanitised name as long
    as that name does not start with a slash; a name that starts with a
    slash would be used as the whole path, so staying inside the upload
    folder rests on [secure_filename]. *)
Theorem upload_store_paths (request : Request) (env : Env) (file : FileStorage) :
  passes_validation request file ->
  let name := secure_filename env (filename file) in
  (exists rest,
      calls (upload_syllabus request) env =
      CallSave file ("static/uploads/syllabus_" ++ name) :: rest) /\
  (forall c tail, name = String c tail -> c <> "/"%char ->
     exists rest,
       calls (upload_file request) env =
       CallSave file ("static/uploads/" ++ name) :: rest) /\
  (forall tail, name = String "/" tail ->
     exists rest,
       calls (upload_file request) env = CallSave file name :: rest) /\
  (name = "" ->
   exists rest,
     calls (upload_file request) env = CallSave file "static/uploads/" :: rest).
Proof.
  intros V name. subst name.
  assert (forall path,
             Py.os_path_join UPLOAD_FOLDER (secure_filename env (filename file))
               = path ->
             exists rest, calls (upload_file request) env = CallSave file path :: rest)
    as Hfile.
  { intros path <-. pose proof V as V'. checks_passed V'.
    destruct (save env file _) as [[]|]; [|eexists; reflexivity].
    destruct (process_uploaded_file env _); eexists; reflexivity. }
  repeat apply conj.
  - pose proof V as V'. checks_passed V'. rewrite syllabus_path_eq.
    destruct (save env file _) as [[]|]; [|eexists; reflexivity].
    destruct (process_uploaded_file env _); [|eexists; reflexivity].
    destruct (add_syllabus_materials env _ _ _) as [[|]|]; eexists; reflexivity.
  - intros c tail E N. apply Hfile.
    exact (proj1 (upload_path_eq _) c tail E N).
  - intros tail E. apply Hfile.
    exact (proj1 (proj2 (upload_path_eq _)) tail E).
  - intros E. apply Hfile. exact (proj2 (proj2 (upload_path_eq _)) E).
Qed.

Lemma upload_store_paths_witness :
  exists rest,
    calls (upload_file (upload_of "notes.txt" "high_school")) ok_env =
    CallSave (part "notes.txt") "static/uploads/notes.txt" :: rest.
Proof.
  destruct (upload_store_paths (upload_of "notes.txt" "high_school") ok_env
              (part "notes.txt") (notes_pass_validation _))
    as (_ & H & _).
  refine (H "n"%char "otes.txt" eq_refl _). discriminate.
Defined.

(** X10. The prefix does not keep the two upload routes apart: a plain
    upload whose sanitised name is syllabus_ followed by [n] is written to
    the very path where the syllabus upload of [n] is written. *)
Theorem uploads_share_one_namespace
    (r1 r2 : Request) (env : Env) (f1 f2 : FileStorage) :
  passes_validation r1 f1 ->
  passes_validation r2 f2 ->
  secure_filename env (filename f1) =
    "syllabus_" ++ secure_filename env (filename f2) ->
  exists path rest1 rest2,
    calls (upload_file r1) env = CallSave f1 path :: rest1 /\
    calls (upload_syllabus r2) env = CallSave f2 path :: rest2.
Proof.
  intros V1 V2 E.
  exists ("static/uploads/syllabus_" ++ secure_filename env (filename f2)).
  assert (Py.os_path_join UPLOAD_FOLDER (secure_filename env (filename f1)) =
          "static/uploads/syllabus_" ++ secure_filename env (filename f2)) as Hp
    by (rewrite E; reflexivity).
  assert (exists rest1,
             calls (upload_file r1) env =
             CallSave f1 ("static/uploads/syllabus_" ++
                          secure_filename env (filename f2)) :: rest1)
    as [rest1 H1].
  { checks_passed V1. rewrite Hp.
    destruct (save env f1 _) as [[]|]; [|eexists; reflexivity].
    destruct (process_uploaded_file env _); eexists; reflexivity. }
  assert (exists rest2,
             calls (upload_syllabus r2) env =
             CallSave f2 ("static/uploads/syllabus_" ++
                          secure_filename env (filename f2)) :: rest2)
    as [rest2 H2].
  { checks_passed V2. rewrite syllabus_path_eq.
    destruct (save env f2 _) as [[]|]; [|eexists; reflexivity].
    destruct (process_uploaded_file env _); [|eexists; reflexivity].
    destruct (add_syllabus_materials env _ _ _) as [[|]|]; eexists; reflexivity. }
  now exists rest1, rest2.
Qed.

Lemma uploads_share_one_namespace_witness :
  exists path rest1 rest2,
    calls (upload_file (upload_of "syllabus_notes.txt" "high_school")) ok_env =
      CallSave (part "syllabus_notes.txt") path :: rest1 /\
    calls (upload_syllabus (upload_of "notes.txt" "high_school")) ok_env =
      CallSave (part "notes.txt") path :: rest2.
Proof.
  apply uploads_share_one_namespace.
  - repeat split. discriminate.
  - apply notes_pass_validation.
  - reflexivity.
Defined.

(** ** More on the JSON routes and the listing *)

(** X11. [/api/chat] with a JSON object for a body: a question that is
    missing or empty (falsy) gives 400, Question is required, and no call;
    any other question is sent once to the chat, together with the
    body's education_level and context, or high_school and the empty
    string where the body has none; the chat's answer comes back with
    200 and success true, and its exception as 500 with the message
    Error in chat: followed by the exception's text. *)
Theorem chat_contract
    (request : Request) (env : Env) (items : list (string * json)) :
  json_body request = Ok (JObj items) ->
  ((Py.lookup "question" items = None \/
    exists v, Py.lookup "question" items = Some v /\ Py.truthy v = false) ->
   run (chat request) env =
   (Ok {| body := JObj [("error", JStr "Question is required")]; status := 400 |},
    [])) /\
  (forall question,
      Py.lookup "question" items = Some question ->
      Py.truthy question = true ->
      let level := item_or (JStr "high_school") "education_level" items in
      let context := item_or (JStr "") "context" items in
      calls (chat request) env = [CallChat question level context] /\
      (forall answer,
          ai_chat env question level context = Ok answer ->
          outcome (chat request) env =
          Ok {| body := JObj [("success", JBool true); ("response", JStr answer)];
                status := 200 |}) /\
      (forall e,
          ai_chat env question level context = Err e ->
          outcome (chat request) env =
          Ok {| body := JObj [("error", JStr ("Error in chat: " ++ exn_str e))];
                status := 500 |})).
Proof.
  intros Hbody. split.
  - intros [M | (v & M & F)]; json_route Hbody; rewrite M.
    + reflexivity.
    + now rewrite F.
  - intros question M T level context. subst level context. unfold item_or.
    repeat apply conj.
    + json_route Hbody. rewrite M, T. cbn [negb].
      destruct (ai_chat env _ _ _); reflexivity.
    + intros answer A. json_route Hbody. rewrite M, T. cbn [negb].
      now rewrite A.
    + intros e A. json_route Hbody. rewrite M, T. cbn [negb]. now rewrite A.
Qed.

Lemma chat_contract_witness :
  run (chat (json_request (Ok (JObj [("question", JNum 0)])))) ok_env =
    (Ok {| body := JObj [("error", JStr "Question is required")]; status := 400 |},
     []) /\
  calls (chat (json_request
                 (Ok (JObj [("question", JStr "What is osmosis?");
                            ("context", JStr "biology")])))) ok_env =
    [CallChat (JStr "What is osmosis?") (JStr "high_school") (JStr "biology")].
Proof.
  split.
  - refine (proj1 (chat_contract
                     (json_request (Ok (JObj [("question", JNum 0)]))) ok_env
                     _ eq_refl) _).
    right. exists (JNum 0). now split.
  - exact (proj1 (proj2 (chat_contract
                           (json_request
                              (Ok (JObj [("question", JStr "What is osmosis?");
                                         ("context", JStr "biology")])))
                           ok_env _ eq_refl)
                    (JStr "What is osmosis?") eq_refl eq_refl)).
Defined.

(** X12. [/api/generate-content] with a topic that is not empty calls the
    generator once with the body's own values, whatever their JSON type:
    a field that is present is passed on as it is, null included, and
    only a missing one gets its default. The content type that was
    passed is the one in the 200 response; an exception of the generator
    comes back as 500 with Error generating content: and its text. *)
Theorem generate_content_passes_fields_on
    (request : Request) (env : Env) (items : list (string * json))
    (topic : json) :
  json_body request = Ok (JObj items) ->
  Py.lookup "topic" items = Some topic ->
  Py.truthy topic = true ->
  let level := item_or (JStr "high_school") "education_level" items in
  let reference := item_or (JStr "") "reference_material" items in
  let content_type := item_or (JStr "explanation") "content_type" items in
  calls (generate_content request) env =
    [CallGenerate topic level reference content_type] /\
  (forall result,
      ai_generate_content env topic level reference content_type = Ok result ->
      outcome (generate_content request) env =
      Ok {| body := JObj [("success", JBool true);
                          ("content", JStr result);
                          ("content_type", content_type)];
            status := 200 |}) /\
  (forall e,
      ai_generate_content env topic level reference content_type = Err e ->
      outcome (generate_content request) env =
      Ok {| body :=
              JObj [("error", JStr ("Error generating content: " ++ exn_str e))];
            status := 500 |}) /\
  (forall v, Py.lookup "content_type" items = Some v -> content_type = v) /\
  (forall v, Py.lookup "education_level" items = Some v -> level = v) /\
  (forall v, Py.lookup "reference_material" items = Some v -> reference = v).
Proof.
  intros Hbody M T level reference content_type.
  subst level reference content_type. unfold item_or. repeat apply conj.
  - json_route Hbody. rewrite M, T. cbn [negb].
    destruct (ai_generate_content env _ _ _ _); reflexivity.
  - intros result G. json_route Hbody. rewrite M, T. cbn [negb]. now rewrite G.
  - intros e G. json_route Hbody. rewrite M, T. cbn [negb]. now rewrite G.
  - intros v H. now rewrite H.
  - intros v H. now rewrite H.
  - intros v H. now rewrite H.
Qed.

Lemma generate_content_passes_fields_on_witness :
  calls (generate_content
           (json_request
              (Ok (JObj [("topic", JStr "Cells");
                         ("education_level", JNull);
                         ("content_type", JStr "quiz")])))) ok_env =
    [CallGenerate (JStr "Cells") JNull (JStr "") (JStr "quiz")].
Proof.
  exact (proj1 (generate_content_passes_fields_on
                  (json_request
                     (Ok (JObj [("topic", JStr "Cells");
                                ("education_level", JNull);
                                ("content_type", JStr "quiz")])))
                  ok_env _ (JStr "Cells") eq_refl eq_refl eq_refl)).
Defined.

(** X13. When [request.json] is any value but a JSON object (null, a
    boolean, a number, a string, a list), both JSON routes raise an
    AttributeError that names the type of the value, and when reading
    [request.json] itself raises, that exception leaves the handler; in
    both cases nothing has been called. *)
Theorem json_routes_raise_without_an_object (request : Request) (env : Env) :
  (forall v,
      json_body request = Ok v ->
      (forall items, v <> JObj items) ->
      let raised :=
        (@Err Response
           (Exn "AttributeError"
              ("'" ++ Py.type_name v ++ "' object has no attribute 'get'")),
         @nil event) in
      run (generate_content request) env = raised /\
      run (chat request) env = raised) /\
  (forall e,
      json_body request = Err e ->
      run (generate_content request) env = (Err e, []) /\
      run (chat request) env = (Err e, [])).
Proof.
  split.
  - intros v Hbody Hv. cbv zeta.
    split; json_route Hbody; destruct v; try reflexivity; now destruct (Hv items).
  - intros e Hbody. split; now json_route Hbody.
Qed.

Lemma json_routes_raise_without_an_object_witness :
  run (generate_content (json_request (Ok (JArr [JStr "Cells"])))) ok_env =
    (Err (Exn "AttributeError" "'list' object has no attribute 'get'"), []) /\
  run (chat (json_request
               (Err (Exn "UnsupportedMediaType" "415 Unsupported Media Type"))))
    ok_env =
    (Err (Exn "UnsupportedMediaType" "415 Unsupported Media Type"), []).
Proof.
  split.
  - refine (proj1 (proj1 (json_routes_raise_without_an_object
                            (json_request (Ok (JArr [JStr "Cells"]))) ok_env)
                     _ eq_refl _)).
    discriminate.
  - exact (proj2 (proj2 (json_routes_raise_without_an_object
                           (json_request
                              (Err (Exn "UnsupportedMediaType"
                                      "415 Unsupported Media Type")))
                           ok_env)
                    _ eq_refl)).
Defined.

(** X14. [/api/syllabus/list] never raises: it calls the listing once and
    answers 200 with success true and the materials as the listing gave
    them, or, when the listing raised, 500 with Error listing materials:
    and the exception's text. *)
Theorem list_syllabus_always_answers (env : Env) :
  exists response,
    run list_syllabus env = (Ok response, [CallListSyllabus]) /\
    ((exists materials,
         list_uploaded_syllabus env = Ok materials /\
         response =
         {| body := JObj [("success", JBool true); ("materials", materials)];
            status := 200 |}) \/
     (exists e,
         list_uploaded_syllabus env = Err e /\
         response =
         {| body := JObj [("error", JStr ("Error listing materials: " ++ exn_str e))];
            status := 500 |})).
Proof.
  destruct (list_syllabus_cases env) as [(e & L & Hrun) | (m & L & Hrun)];
    rewrite Hrun; eexists; (split; [reflexivity|]);
    [right; now exists e | left; now exists m].
Qed.

(** X15. Each route reads its own part of the request: the JSON routes
    depend on [request.json] alone, and a syllabus upload on the files and
    on the form fields education_level and subject alone. *)
Theorem routes_read_their_own_part (r1 r2 : Request) (env : Env) :
  (json_body r1 = json_body r2 ->
   run (generate_content r1) env = run (generate_content r2) env /\
   run (chat r1) env = run (chat r2) env) /\
  (files r1 = files r2 ->
   Py.lookup "education_level" (form r1) = Py.lookup "education_level" (form r2) ->
   Py.lookup "subject" (form r1) = Py.lookup "subject" (form r2) ->
   run (upload_syllabus r1) env = run (upload_syllabus r2) env).
Proof.
  split.
  - intros J. unfold run, generate_content, chat. now rewrite J.
  - intros F L S. unfold run, upload_syllabus, form_get. now rewrite F, L, S.
Qed.

Lemma routes_read_their_own_part_witness :
  json_request (Ok (JObj [("topic", JStr "Cells")])) <>
    {| files := [("file", part "notes.txt")];
       form := [("subject", "biology")];
       json_body := Ok (JObj [("topic", JStr "Cells")]) |} /\
  run (generate_content (json_request (Ok (JObj [("topic", JStr "Cells")]))))
    ok_env =
  run (generate_content
         {| files := [("file", part "notes.txt")];
            form := [("subject", "biology")];
            json_body := Ok (JObj [("topic", JStr "Cells")]) |}) ok_env.
Proof.
  split; [discriminate|].
  exact (proj1 (proj1 (routes_read_their_own_part
                         (json_request (Ok (JObj [("topic", JStr "Cells")])))
                         {| files := [("file", part "notes.txt")];
                            form := [("subject", "biology")];
                            json_body := Ok (JObj [("topic", JStr "Cells")]) |}
                         ok_env) eq_refl)).
Defined.
